(** * Files manager: metadata service, access gate and thumbnail worker

    A shallow embedding of [controllers/FilesController.js] and of the
    thumbnail worker, with the properties of the specification proved (or
    refuted) on it.

    Layout: JavaScript values, the external libraries (as an interface),
    the stores, a small monad for handlers with early [return], the
    handlers themselves, then the theorems. *)

From stdpp Require Import base option list strings gmap pretty.
From Stdlib Require Import ZArith Ascii.

Local Open Scope Z_scope.

(** ** JavaScript values

    The values a JSON body, a header, a query string or a stored document
    field can hold.  Numbers are the integers; arrays and nested objects
    are not modelled. *)

Inductive jsval : Type :=
| JUndefined
| JNull
| JBool (b : bool)
| JNum (n : Z)
| JStr (s : string).

#[global] Instance jsval_eq_dec : EqDecision jsval.
Proof. solve_decision. Defined.

(** [!!v] *)
Definition truthy (v : jsval) : bool :=
  match v with
  | JUndefined | JNull => false
  | JBool b => b
  | JNum n => negb (n =? 0)
  | JStr s => negb (String.eqb s "")
  end.

(** [a === b] on primitives. *)
Definition strict_eq (a b : jsval) : bool := bool_decide (a = b).

(** A destructuring default [{ x = d }]: used only when the property is
    [undefined]. *)
Definition default_to (d v : jsval) : jsval :=
  match v with JUndefined => d | _ => v end.

(** [!s] for a value that is a string or absent (a header, a query
    parameter, a Redis reply). *)
Definition present (o : option string) : bool :=
  match o with
  | Some s => negb (String.eqb s "")
  | None => false
  end.

Definition bytes := list Byte.byte.

(** A MongoDB ObjectId; [toString] is its 24 digit hexadecimal form. *)
Record oid := Oid { toString : string }.

#[global] Instance oid_eq_dec : EqDecision oid.
Proof. solve_decision. Defined.

(** ** External libraries

    What the handlers call but do not define.  [ObjectId v] is the id
    the driver's constructor makes of [v], and [None] when it throws;
    [mime_lookup] is [None] when [mime.lookup] returns [false];
    [imageThumbnail] is [None] when the promise of [image-thumbnail]
    rejects on that content.  [skip_beyond_int64] is what the server
    makes of a [$skip] that exceeds a 64-bit integer: [None] when it
    rejects the pipeline (MongoDB from 5.0 on), the number of documents
    it skips when it clamps the count (earlier servers). *)

Class Platform := {
  ObjectId : jsval -> option oid;
  mime_lookup : jsval -> option string;
  Buffer_from_base64 : string -> bytes;
  path_join : string -> string -> string;
  imageThumbnail : bytes -> Z -> option bytes;
  skip_beyond_int64 : option nat;
}.

(** ** Documents and stores *)

Record userDoc := { user_id : oid }.

(** A document of the [files] collection.  [userId] and [localPath] are
    optional: the seed documents and the folders lack them. *)
Record fileDoc := {
  _id : oid;
  userId : option oid;
  name : jsval;
  type : jsval;
  isPublic : jsval;
  parentId : jsval;
  localPath : option string;
}.

(** The payload of a [fileQueue] job. *)
Record Job := { job_userId : jsval; job_fileId : jsval }.

Record World := {
  users : list userDoc;          (* collection 'users' *)
  files : list fileDoc;          (* collection 'files', in natural order *)
  redis : gmap string string;    (* session store *)
  disk : gmap string bytes;      (* regular files by path *)
  dirs : gset string;            (* directories *)
  fileQueue : list Job;          (* jobs added and not yet processed *)
  FOLDER_PATH : option string;   (* process.env.FOLDER_PATH *)
}.

Definition set_files (fs : list fileDoc) (w : World) : World :=
  {| users := users w; files := fs; redis := redis w; disk := disk w;
     dirs := dirs w; fileQueue := fileQueue w; FOLDER_PATH := FOLDER_PATH w |}.

Definition set_disk (d : gmap string bytes) (w : World) : World :=
  {| users := users w; files := files w; redis := redis w; disk := d;
     dirs := dirs w; fileQueue := fileQueue w; FOLDER_PATH := FOLDER_PATH w |}.

Definition set_dirs (d : gset string) (w : World) : World :=
  {| users := users w; files := files w; redis := redis w; disk := disk w;
     dirs := d; fileQueue := fileQueue w; FOLDER_PATH := FOLDER_PATH w |}.

Definition set_fileQueue (q : list Job) (w : World) : World :=
  {| users := users w; files := files w; redis := redis w; disk := disk w;
     dirs := dirs w; fileQueue := q; FOLDER_PATH := FOLDER_PATH w |}.

(** ** Requests and responses *)

Record Body := {
  body_name : jsval;
  body_type : jsval;
  body_parentId : jsval;
  body_isPublic : jsval;
  body_data : jsval;
}.

Record Request := {
  x_token : option string;        (* req.headers['x-token'] *)
  params_id : string;             (* req.params.id *)
  query_parentId : option string; (* req.query.parentId *)
  query_page : option string;     (* req.query.page *)
  query_size : option string;     (* req.query.size *)
  body : Body;                    (* req.body *)
}.

(** A JSON object as its list of properties; ObjectIds are serialised as
    their hexadecimal string. *)
Definition jobject := list (string * jsval).

Fixpoint property (k : string) (o : jobject) : option jsval :=
  match o with
  | [] => None
  | (k', v) :: o' => if String.eqb k' k then Some v else property k o'
  end.

(** What a rejected promise or a thrown exception carries. *)
Inductive exn : Type :=
| Error (message : string)  (* [new Error(message)] thrown by the code *)
| BSONTypeError             (* [ObjectId(v)] on a malformed [v] *)
| BufferTypeError           (* [Buffer.from(v, 'base64')] on a non-string *)
| TypeError                 (* a property read on [undefined] *)
| MongoError                (* a rejected driver call *)
| FsError                   (* a rejected file system call *)
| ThumbnailError.           (* a rejected [generateThumbnail] *)

Inductive Result : Type :=
| Respond (status : nat) (o : jobject)           (* res.status(s).json({...}) *)
| RespondList (status : nat) (os : list jobject) (* res.json([...]) *)
| Pipe (contentType : jsval) (content : bytes)   (* setHeader + stream.pipe(res) *)
| Throw (e : exn).                               (* the handler's promise rejects *)

Definition error (status : nat) (message : string) : Result :=
  Respond status [("error", JStr message)].

(** What the outside world answers during one [postUpload]: the fresh
    names it hands out and whether the two writes go through. *)
Record UploadEnv := {
  uuidv4 : string;       (* the value of [uuidv4()] *)
  insertedId : oid;      (* the [_id] assigned by [insertOne] *)
  writeFile_ok : bool;   (* [fs.promises.writeFile] resolves *)
  insertOne_ok : bool;   (* [insertOne] resolves *)
}.

(** ** Handlers as state transformers with early exit

    A handler runs on the stores and either goes on with a value or
    stops: with the response of a [return res...], or with an exception. *)

Inductive step (A : Type) : Type :=
| Next (a : A) (w : World)
| Halt (r : Result) (w : World).
Arguments Next {A} a w.
Arguments Halt {A} r w.

Definition M (A : Type) : Type := World -> step A.

#[global] Instance M_ret : MRet M := fun A a w => Next a w.
#[global] Instance M_bind : MBind M := fun A B f m w =>
  match m w with
  | Next a w' => f a w'
  | Halt r w' => Halt r w'
  end.

Definition reply {A} (r : Result) : M A := fun w => Halt r w.
Definition throw {A} (e : exn) : M A := reply (Throw e).
Definition gets {A} (f : World -> A) : M A := fun w => Next (f w) w.
Definition modify (f : World -> World) : M unit := fun w => Next tt (f w).

(** [if (c) return r;] *)
Definition return_if (c : bool) (r : Result) : M unit :=
  if c then reply r else mret tt.

(** [if (!s) return r;] for a string that may be absent. *)
Definition or_return (o : option string) (r : Result) : M string :=
  match o with
  | Some s => if String.eqb s "" then reply r else mret s
  | None => reply r
  end.

(** [if (!doc) return r;] for a document that may be [null]. *)
Definition non_null {A} (o : option A) (r : Result) : M A :=
  match o with
  | Some a => mret a
  | None => reply r
  end.

(** A handler always ends on a response or an exception. *)
Definition run (h : M Empty_set) (w : World) : Result * World :=
  match h w with
  | Next a _ => match a with end
  | Halt r w' => (r, w')
  end.

(** ** Store operations

    The queries and the update of a single document are taken to
    resolve; the two writes of a Create, and the writes of the worker,
    may be rejected. *)

Definition redisClient_get (key : string) : M (option string) :=
  gets (fun w => redis w !! key).

Definition new_ObjectId `{Platform} (v : jsval) : M oid :=
  match ObjectId v with
  | Some o => mret o
  | None => throw BSONTypeError
  end.

Definition users_findOne (id : oid) : M (option userDoc) :=
  gets (fun w => List.find (fun u => bool_decide (user_id u = id)) (users w)).

Definition files_findOne (filter : fileDoc -> bool) : M (option fileDoc) :=
  gets (fun w => List.find filter (files w)).

(** The filters the code uses. *)
Definition by_id (id : oid) (f : fileDoc) : bool :=
  bool_decide (_id f = id).
Definition by_id_and_user (id uid : oid) (f : fileDoc) : bool :=
  bool_decide (_id f = id) && bool_decide (userId f = Some uid).
Definition by_user_and_parent (uid : oid) (p : jsval) (f : fileDoc) : bool :=
  bool_decide (userId f = Some uid) && strict_eq (parentId f) p.

(** [insertOne(doc)]: the document is appended under the id the driver
    picked, which is also the [insertedId] of the result. *)
Definition files_insertOne (env : UploadEnv) (mk : oid -> fileDoc) : M oid :=
  if insertOne_ok env
  then modify (fun w => set_files (files w ++ [mk (insertedId env)]) w) ;;
       mret (insertedId env)
  else throw MongoError.

Definition with_isPublic (v : jsval) (f : fileDoc) : fileDoc :=
  {| _id := _id f; userId := userId f; name := name f; type := type f;
     isPublic := v; parentId := parentId f; localPath := localPath f |}.

(** Apply [upd] to the first document matching [filter]. *)
Fixpoint update_first (filter : fileDoc -> bool) (upd : fileDoc -> fileDoc)
    (l : list fileDoc) : list fileDoc :=
  match l with
  | [] => []
  | f :: l' => if filter f then upd f :: l' else f :: update_first filter upd l'
  end.

(** [findOneAndUpdate(filter, {$set}, {returnDocument: 'after'})]: the
    [value] of the result, the document after the update or [null]. *)
Definition files_findOneAndUpdate (filter : fileDoc -> bool)
    (upd : fileDoc -> fileDoc) : M (option fileDoc) :=
  found ← files_findOne filter;
  modify (fun w => set_files (update_first filter upd (files w)) w) ;;
  mret (upd <$> found).

Definition fs_existsSync (p : string) (w : World) : bool :=
  bool_decide (is_Some (disk w !! p)) || bool_decide (p ∈ dirs w).

Definition fs_writeFile (env : UploadEnv) (p : string) (content : bytes) : M unit :=
  if writeFile_ok env
  then modify (fun w => set_disk (<[p := content]> (disk w)) w)
  else throw FsError.

(** [Buffer.from(data, 'base64')] *)
Definition Buffer_from `{Platform} (data : jsval) : M bytes :=
  match data with
  | JStr s => mret (Buffer_from_base64 s)
  | _ => throw BufferTypeError
  end.

(** [file.type === 'folder'] *)
Definition is_folder (f : fileDoc) : bool := strict_eq (type f) (JStr "folder").

(** [file.userId.toString()] *)
Definition userId_toString (f : fileDoc) : M string :=
  match userId f with
  | Some o => mret (toString o)
  | None => throw TypeError
  end.

(** [res.json(file)] for a stored document: absent properties are left out. *)
Definition json_of_file (f : fileDoc) : jobject :=
  [("_id", JStr (toString (_id f)))]
  ++ match userId f with Some u => [("userId", JStr (toString u))] | None => [] end
  ++ List.filter (fun kv => negb (strict_eq (snd kv) JUndefined))
       [("name", name f); ("type", type f); ("isPublic", isPublic f);
        ("parentId", parentId f)]
  ++ match localPath f with Some p => [("localPath", JStr p)] | None => [] end.

(** ** Numbers and [parseInt]

    [parseInt] returns a double: an integer rounded to the nearest
    double (ties to the even mantissa), an infinity from 2^1024 on, or
    [NaN].  A string holds the UTF-8 encoding of the JavaScript string;
    a byte from 128 on that stands alone is read as the character of
    that code, so the no-break space is the bytes 194 160 and also the
    byte 160. *)

Inductive number : Type :=
| NaN
| Finite (n : Z)
| Infinite (negative : bool).

(** The double nearest to the integer [n]. *)
Definition to_double (n : Z) : number :=
  let a := Z.abs n in
  let e := Z.log2 a - 52 in   (* the weight of the last bit of the mantissa *)
  if e <=? 0 then Finite n else
  let q := Z.shiftr a e in
  let r := Z.land a (Z.ones e) in
  let half := Z.shiftl 1 (e - 1) in
  let q' := if (half <? r) || ((r =? half) && Z.odd q) then q + 1 else q in
  let m := Z.shiftl q' e in
  if Z.shiftl 1 1024 <=? m then Infinite (n <? 0) else Finite (Z.sgn n * m).

(** [x || 0] *)
Definition or_zero (x : number) : number :=
  match x with
  | NaN => Finite 0
  | Finite n => if n =? 0 then Finite 0 else x
  | Infinite _ => x
  end.

(** [x * k] for an integer [k] above zero. *)
Definition times (x : number) (k : Z) : number :=
  match x with
  | NaN => NaN
  | Finite n => to_double (n * k)
  | Infinite negative => Infinite negative
  end.

Definition digit_value (c : Ascii.ascii) : option Z :=
  let n := Z.of_N (Ascii.N_of_ascii c) in
  if (48 <=? n) && (n <=? 57) then Some (n - 48)
  else if (97 <=? n) && (n <=? 122) then Some (n - 87)
  else if (65 <=? n) && (n <=? 90) then Some (n - 55)
  else None.

Fixpoint parse_digits (radix : Z) (acc : option Z) (s : string) : option Z :=
  match s with
  | EmptyString => acc
  | String c s' =>
      match digit_value c with
      | Some d =>
          if d <? radix
          then parse_digits radix (Some (default 0 acc * radix + d)) s'
          else acc
      | None => acc
      end
  end.

(** White space and line terminators: TAB, LF, VT, FF, CR, SP and
    U+00A0 on one byte; U+00A0 on two; U+1680, U+2000 to U+200A, U+2028,
    U+2029, U+202F, U+205F, U+3000 and U+FEFF on three. *)
Definition is_space (c : Ascii.ascii) : bool :=
  let n := Ascii.N_of_ascii c in
  ((9 <=? n) && (n <=? 13) || (n =? 32) || (n =? 160))%N.

Definition is_space2 (a b : Ascii.ascii) : bool :=
  ((Ascii.N_of_ascii a =? 194) && (Ascii.N_of_ascii b =? 160))%N.

Definition is_space3 (a b c : Ascii.ascii) : bool :=
  let x := Ascii.N_of_ascii a in
  let y := Ascii.N_of_ascii b in
  let z := Ascii.N_of_ascii c in
  ((x =? 225) && (y =? 154) && (z =? 128)
   || (x =? 226) && (y =? 128)
      && ((128 <=? z) && (z <=? 138) || (z =? 168) || (z =? 169) || (z =? 175))
   || (x =? 226) && (y =? 129) && (z =? 159)
   || (x =? 227) && (y =? 128) && (z =? 128)
   || (x =? 239) && (y =? 187) && (z =? 191))%N.

Fixpoint trim_start (s : string) : string :=
  match s with
  | String a s1 =>
      if is_space a then trim_start s1 else
      match s1 with
      | String b s2 =>
          if is_space2 a b then trim_start s2 else
          match s2 with
          | String c s3 => if is_space3 a b c then trim_start s3 else s
          | EmptyString => s
          end
      | EmptyString => s
      end
  | EmptyString => s
  end.

Definition parse_unsigned (s : string) : option Z :=
  match s with
  | String "0"%char (String "x"%char s')
  | String "0"%char (String "X"%char s') =>
      parse_digits 16 None s'
  | _ => parse_digits 10 None s
  end.

(** [parseInt(s)] with no radix: leading white space, a sign, [0x] for
    base sixteen, then the longest run of digits, read exactly and
    rounded once. *)
Definition parseInt (q : option string) : number :=
  match q with
  | None => NaN   (* parseInt(undefined) *)
  | Some s =>
      let mathInt :=
        match trim_start s with
        | String "-"%char s' => Z.opp <$> parse_unsigned s'
        | String "+"%char s' => parse_unsigned s'
        | s' => parse_unsigned s'
        end in
      from_option to_double NaN mathInt
  end.

(** [{ $skip: n }]: the number of documents the stage skips, [None]
    when the server rejects the pipeline.  A negative count is rejected;
    a count up to 2^63 - 1 is taken as it is. *)
Definition skip_count `{Platform} (n : number) : option nat :=
  match n with
  | NaN => None
  | Finite k =>
      if k <? 0 then None
      else if k <? Z.shiftl 1 63 then Some (Z.to_nat k)
      else skip_beyond_int64
  | Infinite negative => if negative then None else skip_beyond_int64
  end.

(** [aggregate([{ $match }, { $skip }, { $limit }]).toArray()] *)
Definition files_aggregate `{Platform} (filter : fileDoc -> bool) (skip : number)
    (limit : Z) : M (list fileDoc) :=
  match skip_count skip with
  | Some n => gets (fun w => take (Z.to_nat limit) (drop n (List.filter filter (files w))))
  | None => throw MongoError
  end.

(** ** controllers/FilesController.js *)

Section Handlers.
Context `{Platform}.

Definition postUpload (req : Request) (env : UploadEnv) : M Empty_set :=
  token ← or_return (x_token req) (error 401 "Unauthorized");
  session ← redisClient_get ("auth_" +:+ token);
  userId ← or_return session (error 401 "Unauthorized");
  uid ← new_ObjectId (JStr userId);
  found ← users_findOne uid;
  user ← non_null found (error 401 "Unauthorized");
  let name := body_name (body req) in
  let type := body_type (body req) in
  let parentId := default_to (JNum 0) (body_parentId (body req)) in
  let isPublic := default_to (JBool false) (body_isPublic (body req)) in
  let data := body_data (body req) in
  return_if (negb (truthy name)) (error 400 "Missing name") ;;
  return_if (negb (truthy type)
             || negb (bool_decide (type ∈ [JStr "folder"; JStr "file"; JStr "image"])))
    (error 400 "Missing type") ;;
  return_if (negb (truthy data) && negb (strict_eq type (JStr "folder")))
    (error 400 "Missing data") ;;
  (if negb (strict_eq parentId (JNum 0)) then
     pid ← new_ObjectId parentId;
     parent ← files_findOne (by_id pid);
     parentFile ← non_null parent (error 400 "Parent not found");
     return_if (negb (is_folder parentFile)) (error 400 "Parent is not a folder")
   else mret tt) ;;
  let fileDocument (localPath : option string) (id : oid) :=
    {| _id := id; userId := Some (user_id user); name := name; type := type;
       isPublic := isPublic; parentId := parentId; localPath := localPath |} in
  let created (id : oid) :=
    Respond 201 [("id", JStr (toString id));
                 ("userId", JStr (toString (user_id user)));
                 ("name", name); ("type", type);
                 ("isPublic", isPublic); ("parentId", parentId)] in
  if strict_eq type (JStr "folder") then
    id ← files_insertOne env (fileDocument None);
    reply (created id)
  else
    configured ← gets FOLDER_PATH;
    let folderPath := if present configured then default "" configured
                      else "/tmp/files_manager" in
    exists_ ← gets (fs_existsSync folderPath);
    (if negb exists_
     then modify (fun w => set_dirs ({[folderPath]} ∪ dirs w) w)
     else mret tt) ;;
    let filename := uuidv4 env in
    let localPath := path_join folderPath filename in
    fileBuffer ← Buffer_from data;
    fs_writeFile env localPath fileBuffer ;;
    id ← files_insertOne env (fileDocument (Some localPath));
    (if strict_eq type (JStr "image")
     then modify (fun w => set_fileQueue
            (fileQueue w ++ [{| job_userId := JStr (toString (user_id user));
                                job_fileId := JStr (toString id) |}]) w)
     else mret tt) ;;
    reply (created id).

Definition getIndex (req : Request) : M Empty_set :=
  token ← or_return (x_token req) (error 401 "Unauthorized");
  session ← redisClient_get ("auth_" +:+ token);
  userId ← or_return session (error 401 "Unauthorized");
  let parentId := if present (query_parentId req)
                  then default "" (query_parentId req) else "0" in
  let page := or_zero (parseInt (query_page req)) in
  let pageSize := 20 in
  uid ← new_ObjectId (JStr userId);
  files ← files_aggregate (by_user_and_parent uid (JStr parentId))
            (times page pageSize) pageSize;
  reply (RespondList 200 (json_of_file <$> files)).

Definition setPublic (value : bool) (req : Request) : M Empty_set :=
  token ← or_return (x_token req) (error 401 "Unauthorized");
  session ← redisClient_get ("auth_" +:+ token);
  userId ← or_return session (error 401 "Unauthorized");
  let fileId := params_id req in
  fid ← new_ObjectId (JStr fileId);
  uid ← new_ObjectId (JStr userId);
  file ← files_findOneAndUpdate (by_id_and_user fid uid) (with_isPublic (JBool value));
  updated ← non_null file (error 404 "Not found");
  reply (Respond 200 (json_of_file updated)).

Definition putPublish : Request -> M Empty_set := setPublic true.
Definition putUnpublish : Request -> M Empty_set := setPublic false.

Definition getFile (req : Request) : M Empty_set :=
  let fileId := params_id req in
  let size := query_size req in
  fid ← new_ObjectId (JStr fileId);
  found ← files_findOne (by_id fid);
  file ← non_null found (error 404 "Not found");
  (if negb (truthy (isPublic file)) then
     token ← or_return (x_token req) (error 404 "Not found");
     session ← redisClient_get ("auth_" +:+ token);
     userId ← or_return session (error 404 "Not found");
     owner ← userId_toString file;
     return_if (negb (String.eqb userId owner)) (error 404 "Not found")
   else mret tt) ;;
  return_if (is_folder file) (error 400 "A folder doesn't have content") ;;
  let filePath :=
    if present size
    then Some (from_option id "undefined" (localPath file) +:+ "_" +:+ default "" size)
    else localPath file in
  exists_ ← gets (fun w => from_option (fun p => fs_existsSync p w) false filePath);
  return_if (negb exists_) (error 404 "Not found") ;;
  let mimeType := from_option JStr (JBool false) (mime_lookup (name file)) in
  content ← gets (fun w => filePath ≫= (fun p => disk w !! p));
  match content with
  | Some c => reply (Pipe mimeType c)
  | None => throw FsError   (* the path is a directory *)
  end.

End Handlers.

(** ** The thumbnail worker *)

(** What the outside world answers during one job: whether the write of
    the rendition of a given width goes through. *)
Record JobEnv := {
  thumbnail_writeFile_ok : Z -> bool;
}.

(** The store accesses a job makes: the lookup, then those of each call
    of [generateThumbnail] in the order of that call, the three calls
    listed one width after the other (in time they interleave). *)
Inductive access : Type :=
| FindOne (fileId userId : oid)             (* files.findOne({_id, userId}) *)
| ReadImage (path : option string) (width : Z) (* imageThumbnail(path, {width}) *)
| WriteFile (path : string).                (* fs.promises.writeFile(path, ...) *)

(** How Bull sees the job end: the processor's promise resolves or rejects. *)
Inductive JobResult : Type :=
| Completed
| Failed (e : exn).

(** The end of one call of [generateThumbnail]. *)
Record Rendition := {
  rendition_width : Z;
  rendition_accesses : list access;
  rendition_written : option (string * bytes);  (* [None]: the call rejected *)
}.

Record JobRun := {
  job_result : JobResult;
  job_world : World;
  job_accesses : list access;
}.

Section Worker.
Context `{Platform}.

(** [generateThumbnail(path, width)], run on the files [d].  The path it
    writes is never the path it reads, so the file it reads is the same
    whatever the other two calls have written by then. *)
Definition generateThumbnail (env : JobEnv) (d : gmap string bytes)
    (path : option string) (width : Z) : Rendition :=
  let source := path ≫= (fun p => d !! p) in
  match source ≫= (fun image => imageThumbnail image width) with
  | None =>
      {| rendition_width := width;
         rendition_accesses := [ReadImage path width];
         rendition_written := None |}
  | Some thumbnail =>
      let thumbnailPath := from_option id "undefined" path +:+ "_" +:+ pretty width in
      {| rendition_width := width;
         rendition_accesses := [ReadImage path width; WriteFile thumbnailPath];
         rendition_written :=
           if thumbnail_writeFile_ok env width
           then Some (thumbnailPath, thumbnail) else None |}
  end.

Definition write_rendition (d : gmap string bytes) (r : Rendition) : gmap string bytes :=
  match rendition_written r with
  | Some (p, content) => <[p := content]> d
  | None => d
  end.

(** The function given to [fileQueue.process].  The three calls of
    [generateThumbnail] are all started by [sizes.map] before
    [Promise.all] looks at any of them, and a rejection does not cancel
    the others: [job_world] is the state once all three have settled,
    [job_result] what [Promise.all] reports ([ThumbnailError] stands for
    the first rejection, whichever width it comes from). *)
Definition process (job : Job) (env : JobEnv) (w : World) : JobRun :=
  let userId := job_userId job in
  let fileId := job_fileId job in
  let failed e log := {| job_result := Failed e; job_world := w; job_accesses := log |} in
  if negb (truthy fileId) then failed (Error "Missing fileId") [] else
  if negb (truthy userId) then failed (Error "Missing userId") [] else
  match ObjectId fileId with
  | None => failed BSONTypeError []
  | Some fid =>
  match ObjectId userId with
  | None => failed BSONTypeError []
  | Some uid =>
  match List.find (by_id_and_user fid uid) (files w) with
  | None => failed (Error "File not found") [FindOne fid uid]
  | Some file =>
      let sizes := [500; 250; 100] in
      let renditions := generateThumbnail env (disk w) (localPath file) <$> sizes in
      {| job_result :=
           if forallb (fun r => bool_decide (is_Some (rendition_written r))) renditions
           then Completed else Failed ThumbnailError;
         job_world := set_disk (foldl write_rendition (disk w) renditions) w;
         job_accesses := FindOne fid uid :: concat (rendition_accesses <$> renditions) |}
  end end end.

End Worker.

(** ** A platform and a world for the examples

    A stand-in for the libraries: ids are the strings of 24 lower case
    hexadecimal digits, a handful of extensions have a MIME type, paths
    are joined with a slash, the image scaler returns the image as it
    is and rejects an empty one, and the server rejects a [$skip]
    beyond a 64-bit integer. *)

Definition is_hex (c : Ascii.ascii) : bool :=
  let n := Ascii.N_of_ascii c in
  (((48 <=? n) && (n <=? 57)) || ((97 <=? n) && (n <=? 102)))%N.

Fixpoint all_hex (s : string) : bool :=
  match s with
  | EmptyString => true
  | String c s' => is_hex c && all_hex s'
  end.

(** The text after the last dot of [s], if there is a dot. *)
Fixpoint extension (s : string) : option string :=
  match s with
  | EmptyString => None
  | String c s' =>
      match extension s' with
      | Some e => Some e
      | None => if Ascii.eqb c "."%char then Some s' else None
      end
  end.

(** A base64 decoder: characters outside the alphabet are skipped. *)
Definition sextet (c : Ascii.ascii) : option N :=
  let n := Ascii.N_of_ascii c in
  (if (65 <=? n) && (n <=? 90) then Some (n - 65)
   else if (97 <=? n) && (n <=? 122) then Some (n - 71)
   else if (48 <=? n) && (n <=? 57) then Some (n + 4)
   else if (n =? 43) || (n =? 45) then Some 62
   else if (n =? 47) || (n =? 95) then Some 63
   else None)%N.

Fixpoint sextets (s : string) : list N :=
  match s with
  | EmptyString => []
  | String c s' =>
      match sextet c with
      | Some v => v :: sextets s'
      | None => sextets s'
      end
  end.

Fixpoint octets (l : list N) : list N :=
  match l with
  | a :: b :: c :: d :: l' =>
      (a * 4 + b / 16 :: (b mod 16) * 16 + c / 4 :: (c mod 4) * 64 + d :: octets l')%N
  | [a; b; c] => [a * 4 + b / 16; (b mod 16) * 16 + c / 4]%N
  | [a; b] => [a * 4 + b / 16]%N
  | _ => []
  end.

Definition test_base64 (s : string) : bytes :=
  (fun n => default Byte.x00 (Byte.of_N n)) <$> octets (sextets s).

Definition test_mime (v : jsval) : option string :=
  match v with
  | JStr s =>
      e ← extension s;
      if String.eqb e "txt" then Some "text/plain"
      else if String.eqb e "png" then Some "image/png"
      else if String.eqb e "jpg" then Some "image/jpeg"
      else if String.eqb e "json" then Some "application/json"
      else None
  | _ => None
  end.

Definition test_platform : Platform := {|
  ObjectId v :=
    match v with
    | JStr s => if (String.length s =? 24)%nat && all_hex s then Some (Oid s) else None
    | _ => None
    end;
  mime_lookup := test_mime;
  Buffer_from_base64 := test_base64;
  path_join a b := a +:+ "/" +:+ b;
  imageThumbnail image width := if bool_decide (image = []) then None else Some image;
  skip_beyond_int64 := None;
|}.

Definition alice : oid := Oid "aaaaaaaaaaaaaaaaaaaaaaaa".
Definition bob : oid := Oid "bbbbbbbbbbbbbbbbbbbbbbbb".
Definition file1 : oid := Oid "111111111111111111111111".
Definition file2 : oid := Oid "222222222222222222222222".
Definition file3 : oid := Oid "333333333333333333333333".

(** Alice and Bob are logged in; Alice owns a private text file (whose
    blob and 250 rendition exist) and a folder; Bob owns a public image. *)

Definition notes : fileDoc :=
  {| _id := file1; userId := Some alice; name := JStr "notes.txt";
     type := JStr "file"; isPublic := JBool false; parentId := JNum 0;
     localPath := Some "/tmp/files_manager/u1" |}.

Definition docs : fileDoc :=
  {| _id := file2; userId := Some alice; name := JStr "docs";
     type := JStr "folder"; isPublic := JBool false; parentId := JNum 0;
     localPath := None |}.

Definition picture : fileDoc :=
  {| _id := file3; userId := Some bob; name := JStr "picture";
     type := JStr "image"; isPublic := JBool true; parentId := JNum 0;
     localPath := Some "/tmp/files_manager/u3" |}.

Definition test_world : World := {|
  users := [ {| user_id := alice |}; {| user_id := bob |} ];
  files := [notes; docs; picture];
  redis := {[ "auth_tokenA" := toString alice; "auth_tokenB" := toString bob ]};
  disk := {[ "/tmp/files_manager/u1" := [Byte.x68; Byte.x69];
             "/tmp/files_manager/u1_250" := [Byte.x68];
             "/tmp/files_manager/u3" := [Byte.x89; Byte.x50];
             "/tmp/files_manager/u3_anything" := [Byte.x2a] ]};
  dirs := {[ "/tmp/files_manager" ]};
  fileQueue := [];
  FOLDER_PATH := None;
|}.

Definition test_env : UploadEnv := {|
  uuidv4 := "u9";
  insertedId := Oid "999999999999999999999999";
  writeFile_ok := true;
  insertOne_ok := true;
|}.

Definition upload (token : option string) (b : Body) : Request := {|
  x_token := token; params_id := ""; query_parentId := None;
  query_page := None; query_size := None; body := b;
|}.

Definition on_file (token : option string) (id : string) (size : option string) : Request := {|
  x_token := token; params_id := id; query_parentId := None;
  query_page := None; query_size := size;
  body := {| body_name := JUndefined; body_type := JUndefined;
             body_parentId := JUndefined; body_isPublic := JUndefined;
             body_data := JUndefined |};
|}.

Definition listing (token : option string) (parent page : option string) : Request := {|
  x_token := token; params_id := ""; query_parentId := parent;
  query_page := page; query_size := None;
  body := {| body_name := JUndefined; body_type := JUndefined;
             body_parentId := JUndefined; body_isPublic := JUndefined;
             body_data := JUndefined |};
|}.

(** ** What the statements speak of *)

(** The request carries a token that the session store resolves to the
    string [userId]. *)
Definition resolves_to (w : World) (req : Request) (userId : string) : Prop :=
  ∃ token, x_token req = Some token ∧ token ≠ "" ∧
           redis w !! ("auth_" +:+ token) = Some userId ∧ userId ≠ "".

(** The request is made by the registered user [user]. *)
Definition authenticated `{Platform} (w : World) (req : Request) (user : userDoc) : Prop :=
  ∃ userId uid, resolves_to w req userId ∧ ObjectId (JStr userId) = Some uid ∧
                List.find (fun u => bool_decide (user_id u = uid)) (users w) = Some user.

Definition kinds : list jsval := [JStr "folder"; JStr "file"; JStr "image"].

(** The effective [parentId] and [isPublic] of an upload. *)
Definition parent_of (b : Body) : jsval := default_to (JNum 0) (body_parentId b).
Definition public_of (b : Body) : jsval := default_to (JBool false) (body_isPublic b).

(** The fields of the body pass the three field checks. *)
Definition fields_ok (b : Body) : Prop :=
  truthy (body_name b) = true ∧ body_type b ∈ kinds ∧
  (truthy (body_data b) = true ∨ body_type b = JStr "folder").

(** The record [parentId] designates, for a non-root [parentId]. *)
Definition parent_record `{Platform} (w : World) (b : Body) : option fileDoc :=
  ObjectId (parent_of b) ≫= (fun pid => List.find (by_id pid) (files w)).

(** The parent of the upload is the root or an existing folder. *)
Definition parent_ok `{Platform} (w : World) (b : Body) : Prop :=
  parent_of b = JNum 0 ∨
  ∃ parent, parent_record w b = Some parent ∧ type parent = JStr "folder".

(** The access gate of [getFile] lets the request read [file]: the file
    is public, or the token resolves to its owner. *)
Definition may_read (w : World) (req : Request) (file : fileDoc) : Prop :=
  truthy (isPublic file) = true ∨
  ∃ owner, userId file = Some owner ∧ resolves_to w req (toString owner).

Section Statements.
Context `{Platform}.

(** The document a Create stores. *)
Definition stored (user : userDoc) (b : Body) (path : option string) (id : oid) : fileDoc :=
  {| _id := id; userId := Some (user_id user); name := body_name b;
     type := body_type b; isPublic := public_of b; parentId := parent_of b;
     localPath := path |}.

(** The body of its 201 response. *)
Definition returned (user : userDoc) (b : Body) (id : oid) : jobject :=
  [("id", JStr (toString id)); ("userId", JStr (toString (user_id user)));
   ("name", body_name b); ("type", body_type b);
   ("isPublic", public_of b); ("parentId", parent_of b)].

(** The path [getFile] reads: the blob itself, or the blob's path, an
    underscore and the [size] parameter as it came. *)
Definition filePath_of (req : Request) (file : fileDoc) : option string :=
  if present (query_size req)
  then Some (from_option id "undefined" (localPath file) +:+ "_" +:+ default "" (query_size req))
  else localPath file.

(** What [$skip] makes of the page of a listing: the number of records
    it skips, [None] when it rejects the pipeline. *)
Definition page_skip (req : Request) : option nat :=
  skip_count (times (or_zero (parseInt (query_page req))) 20).

(** Handlers run one after the other. *)
Fixpoint run_all (hs : list (M Empty_set)) (w : World) : list Result * World :=
  match hs with
  | [] => ([], w)
  | h :: hs' =>
      let (r, w') := run h w in
      let (rs, w'') := run_all hs' w' in
      (r :: rs, w'')
  end.

(** Publish for [true], unpublish for [false]. *)
Definition toggle (req : Request) (value : bool) : M Empty_set :=
  if value then putPublish req else putUnpublish req.

Definition sizes : list Z := [500; 250; 100].

(** The job names a record of [files] by id and owner together. *)
Definition matched (job : Job) (w : World) (file : fileDoc) : Prop :=
  truthy (job_fileId job) = true ∧ truthy (job_userId job) = true ∧
  ∃ fid uid, ObjectId (job_fileId job) = Some fid ∧
             ObjectId (job_userId job) = Some uid ∧
             List.find (by_id_and_user fid uid) (files w) = Some file.

(** The rendition of a width is on disk once the job has run, whenever
    its own generation and its own write went through. *)
Definition widths_independent (job : Job) (env : JobEnv) (w : World) : Prop :=
  ∀ file width p thumbnail,
    matched job w file -> width ∈ sizes ->
    rendition_written (generateThumbnail env (disk w) (localPath file) width)
      = Some (p, thumbnail) ->
    disk (job_world (process job env w)) !! p = Some thumbnail.

(** The job fails only if the three widths fail. *)
Definition fails_only_if_all_fail (job : Job) (env : JobEnv) (w : World) : Prop :=
  ∀ file e,
    matched job w file -> job_result (process job env w) = Failed e ->
    ∀ width, width ∈ sizes ->
      rendition_written (generateThumbnail env (disk w) (localPath file) width) = None.

(** Nothing of the Create is kept: no record, no blob. *)
Definition nothing_persisted (w w' : World) : Prop :=
  files w' = files w ∧ disk w' = disk w.

(** The Create is kept whole: a record is added, and for a file or an
    image the blob is on disk at the record's [localPath]. *)
Definition fully_persisted (w w' : World) : Prop :=
  ∃ doc, files w' = files w ++ [doc] ∧
         (type doc ≠ JStr "folder" ->
          ∃ p, localPath doc = Some p ∧ is_Some (disk w' !! p)).

(** Create is all or nothing. *)
Definition atomic_create (w : World) (req : Request) (env : UploadEnv) : Prop :=
  let (r, w') := run (postUpload req env) w in
  (∃ o, r = Respond 201 o ∧ fully_persisted w w')
  ∨ ((∀ o, r ≠ Respond 201 o) ∧ nothing_persisted w w').

(** The blob of the Create is on disk and its record is not. *)
Definition orphan_blob (w w' : World) : Prop :=
  files w' = files w ∧ ∃ p content, disk w' = <[p := content]> (disk w).

End Statements.

(** ** Requests, jobs and answers of the outside world for the examples *)

Definition hex (o : oid) : string := toString o.

Definition fields (name type parentId data : jsval) : Body := {|
  body_name := name; body_type := type; body_parentId := parentId;
  body_isPublic := JUndefined; body_data := data;
|}.

(** The insert is rejected; the write before it is not. *)
Definition insert_rejected : UploadEnv := {|
  uuidv4 := "u9";
  insertedId := Oid "999999999999999999999999";
  writeFile_ok := true;
  insertOne_ok := false;
|}.

(** Bob's image, as [postUpload] queues it. *)
Definition image_job : Job :=
  {| job_userId := JStr (hex bob); job_fileId := JStr (hex file3) |}.




Definition all_writes_ok : JobEnv := {| thumbnail_writeFile_ok width := true |}.

(** The write of the 500 rendition is rejected, the other two are not. *)
Definition write_500_rejected : JobEnv :=
  {| thumbnail_writeFile_ok width := negb (width =? 500) |}.

(** Alice is logged in and nothing is stored yet. *)
Definition empty_world : World := set_files [] (set_disk ∅ test_world).

Definition nth_id (n : nat) : oid :=
  Oid ("cccccccccccccccccccccc" +:+ (if (n <? 10)%nat then "0" else "") +:+ pretty n).

(** Alice's [n]th upload, with no [parentId] in the body. *)
Definition root_upload (n : nat) : M Empty_set :=
  @postUpload test_platform
    (upload (Some "tokenA")
       (fields (JStr ("file" +:+ pretty n)) (JStr "file") JUndefined (JStr "aGk=")))
    {| uuidv4 := "u" +:+ pretty n; insertedId := nth_id n;
       writeFile_ok := true; insertOne_ok := true |}.

Definition is_created (r : Result) : bool :=
  match r with
  | Respond 201 _ => true
  | _ => false
  end.

(** ** The rest of the code: [getShow] and the database client *)

Section Reading.
Context `{Platform}.

Definition getShow (req : Request) : M Empty_set :=
  token ← or_return (x_token req) (error 401 "Unauthorized");
  session ← redisClient_get ("auth_" +:+ token);
  userId ← or_return session (error 401 "Unauthorized");
  let fileId := params_id req in
  fid ← new_ObjectId (JStr fileId);
  uid ← new_ObjectId (JStr userId);
  found ← files_findOne (by_id_and_user fid uid);
  file ← non_null found (error 404 "Not found");
  reply (Respond 200 (json_of_file file)).

End Reading.

(** [DBClient.nbUsers] and [DBClient.nbFiles]: [countDocuments]. *)
Definition nbUsers (w : World) : nat := length (users w).
Definition nbFiles (w : World) : nat := length (files w).

Definition set_users (us : list userDoc) (w : World) : World :=
  {| users := us; files := files w; redis := redis w; disk := disk w;
     dirs := dirs w; fileQueue := fileQueue w; FOLDER_PATH := FOLDER_PATH w |}.

(** The ids the driver assigns to the documents of the two [insertMany]. *)
Record SeedEnv := {
  seed_user_id : nat -> oid;
  seed_file_id : nat -> oid;
}.

(** [{ name: `File${index + 1}` }]: a document with a name and nothing else. *)
Definition sample_file (id : oid) (index : nat) : fileDoc :=
  {| _id := id; userId := None; name := JStr ("File" +:+ pretty (index + 1)%nat);
     type := JUndefined; isPublic := JUndefined; parentId := JUndefined;
     localPath := None |}.

(** [DBClient.initializeData].  (A [userDoc] carries the [_id] only: the
    [name] of the four sample users is not kept.) *)
Definition initializeData (env : SeedEnv) (w : World) : World :=
  let userCount := nbUsers w in
  let fileCount := nbFiles w in
  let w1 :=
    if (userCount =? 0)%nat
    then set_users (users w ++ ((fun i => {| user_id := seed_user_id env i |}) <$> seq 0 4)) w
    else w in
  if (fileCount =? 0)%nat
  then set_files (files w1 ++ ((fun index => sample_file (seed_file_id env index) index)
                               <$> seq 0 30)) w1
  else w1.

(** ** What the further statements speak of *)

(** The request carries no token the session store resolves. *)
Definition no_session (w : World) (req : Request) : Prop :=
  present (x_token req) = false ∨
  ∃ token, x_token req = Some token ∧
           present (redis w !! ("auth_" +:+ token)) = false.

(** The records of [uid] under the parent [p], in the order of the
    collection: what [$match] selects. *)
Definition listed (uid : oid) (p : string) (w : World) : list fileDoc :=
  List.filter (by_user_and_parent uid (JStr p)) (files w).

(** The configured folder of the blobs. *)
Definition folderPath_of (w : World) : string :=
  if present (FOLDER_PATH w) then default "" (FOLDER_PATH w) else "/tmp/files_manager".

(** The Create of [req] is kept as the request gave it: the record of
    the request is added under the id the driver assigned, and for a
    file or an image the blob at the record's [localPath] is the
    decoding of [data]. *)
Definition persisted_as_requested `{Platform} (w w' : World) (req : Request)
    (env : UploadEnv) : Prop :=
  ∃ user, authenticated w req user ∧
    if strict_eq (body_type (body req)) (JStr "folder")
    then files w' = files w ++ [stored user (body req) None (insertedId env)]
         ∧ disk w' = disk w
    else ∃ payload, body_data (body req) = JStr payload ∧
         let p := path_join (folderPath_of w) (uuidv4 env) in
         files w' = files w ++ [stored user (body req) (Some p) (insertedId env)]
         ∧ disk w' = <[p := Buffer_from_base64 payload]> (disk w).

(** The decoding of [data] is on disk at the path the Create gave it,
    and no record was added. *)
Definition blob_without_record `{Platform} (w w' : World) (req : Request)
    (env : UploadEnv) : Prop :=
  files w' = files w ∧ body_type (body req) ≠ JStr "folder" ∧
  ∃ payload, body_data (body req) = JStr payload ∧
    disk w' = <[path_join (folderPath_of w) (uuidv4 env) :=
                 Buffer_from_base64 payload]> (disk w).

(** The path of the rendition of [width] of the blob at [p]. *)
Definition thumbnailPath_of (p : option string) (width : Z) : string :=
  from_option id "undefined" p +:+ "_" +:+ pretty width.

(** The job [postUpload] queues for an image. *)
Definition queued_job (user : userDoc) (id : oid) : Job :=
  {| job_userId := JStr (toString (user_id user)); job_fileId := JStr (toString id) |}.

(** The driver reads back the ids it printed. *)
Definition reads_back `{Platform} (o : oid) : Prop :=
  ObjectId (JStr (toString o)) = Some o.

(** The driver prints the id as a non-empty string. *)
Definition printed (o : oid) : Prop := toString o ≠ "".

(** The [parentId] a listing filters on. *)
Definition parent_query (req : Request) : string :=
  if present (query_parentId req) then default "" (query_parentId req) else "0".

(** The string is made of decimal digits. *)
Fixpoint all_digits (s : string) : bool :=
  match s with
  | EmptyString => true
  | String c s' =>
      (let n := Ascii.N_of_ascii c in (48 <=? n) && (n <=? 57))%N && all_digits s'
  end.

(** The bytes the last rendition of [rs] written at [q] holds, if one was
    written there. *)
Fixpoint last_written (q : string) (rs : list Rendition) : option bytes :=
  match rs with
  | [] => None
  | r :: rs' =>
      match last_written q rs' with
      | Some t => Some t
      | None =>
          match rendition_written r with
          | Some (p, t) => if decide (p = q) then Some t else None
          | None => None
          end
      end
  end.

(** ** Further requests and worlds for the examples *)

(** Alice's account is gone and her session is still there. *)
Definition world_without_alice : World := set_users [ {| user_id := bob |} ] test_world.

(** An image, a text file and a file with a number as data, uploaded to
    the root without [isPublic]. *)
Definition image_body : Body := fields (JStr "cat.png") (JStr "image") JUndefined (JStr "aGk=").
Definition text_body : Body := fields (JStr "a.txt") (JStr "file") JUndefined (JStr "aGk=").
Definition number_body : Body := fields (JStr "a.txt") (JStr "file") JUndefined (JNum 5).

(** A text file uploaded into Alice's folder. *)
Definition nested_body : Body :=
  fields (JStr "b.txt") (JStr "file") (JStr (hex file2)) (JStr "aGk=").

Definition new_id : oid := insertedId test_env.

(** The job of Alice's folder. *)
Definition folder_job : Job :=
  {| job_userId := JStr (hex alice); job_fileId := JStr (hex file2) |}.

Definition seeds : SeedEnv := {| seed_user_id := nth_id; seed_file_id := nth_id |}.

(** Alice's folder with 45 text files in it. *)
Definition shelf_file (n : nat) : fileDoc :=
  {| _id := nth_id n; userId := Some alice; name := JStr ("sheet" +:+ pretty n +:+ ".txt");
     type := JStr "file"; isPublic := JBool false; parentId := JStr (hex file2);
     localPath := Some ("/tmp/files_manager/s" +:+ pretty n) |}.

Definition shelf : World :=
  set_files (files test_world ++ (shelf_file <$> seq 0 45)) test_world.

(** * Properties *)

Lemma eqb_empty_false (s : string) : s ≠ "" -> String.eqb s "" = false.
Proof. apply String.eqb_neq. Qed.

Lemma strict_eq_true (a b : jsval) : strict_eq a b = true <-> a = b.
Proof. unfold strict_eq. apply bool_decide_eq_true. Qed.

Lemma strict_eq_false (a b : jsval) : strict_eq a b = false <-> a ≠ b.
Proof. unfold strict_eq. apply bool_decide_eq_false. Qed.

Lemma append_inj_r (p a b : string) : p +:+ a = p +:+ b -> a = b.
Proof. induction p as [|c p IH]; simpl; [auto | intros [= E]; auto]. Qed.

(** Unfold the monad and the store operations, and reduce. *)
Ltac hstep :=
  cbv beta iota delta [run mbind M_bind mret M_ret or_return non_null return_if
    redisClient_get users_findOne files_findOne new_ObjectId gets modify
    reply throw files_insertOne fs_writeFile Buffer_from userId_toString
    files_findOneAndUpdate files_aggregate];
  cbn [negb andb orb].

Ltac hstep_in H :=
  cbv beta iota delta [run mbind M_bind mret M_ret or_return non_null return_if
    redisClient_get users_findOne files_findOne new_ObjectId gets modify
    reply throw files_insertOne fs_writeFile Buffer_from userId_toString
    files_findOneAndUpdate files_aggregate] in H;
  cbn [negb andb orb] in H.

(** Run a handler along the equations in the context. *)
Ltac hrun :=
  repeat (hstep; match goal with H : _ = _ |- _ => rewrite H end); hstep.

Ltac use_session Hs :=
  let token := fresh "token" in
  destruct Hs as (token & ?Htoken & ?Hne & ?Hsession & ?Hne');
  apply eqb_empty_false in Hne, Hne'.

Ltac use_auth Hauth :=
  let userId := fresh "userId" in
  let uid := fresh "uid" in
  let Hs := fresh "Hs" in
  destruct Hauth as (userId & uid & Hs & ?Hoid & ?Hfind); use_session Hs.

(** Case analysis on a request without a session. *)
Ltac no_session_cases Hno :=
  let token := fresh "token" in
  let session := fresh "session" in
  destruct Hno as [Hno | (token & ?Htoken & Hno)];
  [ unfold present in Hno;
    destruct (x_token _) as [token|] eqn:?Htoken;
    [apply negb_false_iff in Hno|]
  | destruct (String.eqb token "") eqn:?Hempty;
    [| unfold present in Hno;
       destruct (redis _ !! ("auth_" +:+ token)) as [session|] eqn:?Hredis;
       [apply negb_false_iff in Hno|]] ].

(** Put the boolean facts of the context in a plain form. *)
Ltac plain_bools :=
  repeat match goal with
  | H : negb _ = false |- _ => apply negb_false_iff in H
  | H : negb _ = true |- _ => apply negb_true_iff in H
  | H : _ || _ = false |- _ => apply orb_false_iff in H as [? ?]
  | H : _ && negb false = false |- _ => rewrite andb_true_r in H
  | H : _ && negb true = false |- _ => clear H
  | H : (_ =? "")%string = false |- _ => apply String.eqb_neq in H
  end.

Section Properties.
Context `{Platform}.

(** ** Create: validation *)

Lemma kinds_included (v : jsval) :
  v ∈ kinds -> truthy v = true ∧ bool_decide (v ∈ kinds) = true.
Proof.
  intros Hin. split; [|by apply bool_decide_eq_true].
  unfold kinds in Hin. rewrite !elem_of_cons, elem_of_nil in Hin.
  destruct Hin as [->|[->|[->|[]]]]; reflexivity.
Qed.

(** C5 (the code departs from it). An authenticated Create is rejected
    with status 400 and leaves the stores as they were: "Missing name"
    when [name] is missing, "Missing type" when [type] is not one of
    folder, file, image, "Missing data" when [data] is missing and the
    type is not folder, "Parent not found" when [parentId] is not the
    root and is the id of no record, "Parent is not a folder" when it is
    the id of a record of another type.  The checks apply in this order.
    But a [parentId] that the driver does not read as an id, which is
    the id of no record either, is not answered 400: [ObjectId(parentId)]
    throws before the parent is looked up, and the handler ends on that
    exception without a response. *)
Theorem postUpload_validation (w : World) (req : Request) (env : UploadEnv)
    (user : userDoc) :
  authenticated w req user ->
  let b := body req in
  (truthy (body_name b) = false ->
     run (postUpload req env) w = (error 400 "Missing name", w))
  ∧ (truthy (body_name b) = true -> body_type b ∉ kinds ->
     run (postUpload req env) w = (error 400 "Missing type", w))
  ∧ (truthy (body_name b) = true -> body_type b ∈ kinds ->
     truthy (body_data b) = false -> body_type b ≠ JStr "folder" ->
     run (postUpload req env) w = (error 400 "Missing data", w))
  ∧ (fields_ok b -> parent_of b ≠ JNum 0 ->
     ∀ pid, ObjectId (parent_of b) = Some pid ->
       List.find (by_id pid) (files w) = None ->
       run (postUpload req env) w = (error 400 "Parent not found", w))
  ∧ (fields_ok b -> parent_of b ≠ JNum 0 ->
     ∀ parent, parent_record w b = Some parent -> type parent ≠ JStr "folder" ->
       run (postUpload req env) w = (error 400 "Parent is not a folder", w))
  ∧ (fields_ok b -> parent_of b ≠ JNum 0 ->
     ObjectId (parent_of b) = None ->
     parent_record w b = None
     ∧ run (postUpload req env) w = (Throw BSONTypeError, w)).
Proof.
  intros Hauth b. use_auth Hauth. subst b.
  split; [|split; [|split; [|split; [|split]]]].
  - intros Hname. unfold postUpload. hrun. reflexivity.
  - intros Hname Hkind. unfold postUpload.
    apply (bool_decide_eq_false_2 (body_type (body req) ∈ kinds)) in Hkind.
    unfold kinds in Hkind. hrun. rewrite orb_true_r. reflexivity.
  - intros Hname Hkind Hdata Hfolder. unfold postUpload.
    apply kinds_included in Hkind as [Ht Hk]. unfold kinds in Hk.
    apply strict_eq_false in Hfolder. hrun. reflexivity.
  - intros (Hname & Hkind & Hdata) Hroot pid Hpid Hnone. unfold postUpload.
    apply kinds_included in Hkind as [Ht Hk]. unfold kinds in Hk.
    apply strict_eq_false in Hroot. unfold parent_of in *.
    assert (Hd : negb (truthy (body_data (body req))) &&
                 negb (strict_eq (body_type (body req)) (JStr "folder")) = false).
    { destruct Hdata as [-> | ->]; [reflexivity | apply andb_false_r]. }
    hrun. reflexivity.
  - intros (Hname & Hkind & Hdata) Hroot parent Hparent Hfolder. unfold postUpload.
    apply kinds_included in Hkind as [Ht Hk]. unfold kinds in Hk.
    apply strict_eq_false in Hroot. unfold parent_record, parent_of in *.
    destruct (ObjectId (default_to _ _)) as [pid|] eqn:Hpid;
      [simpl in Hparent | discriminate].
    assert (Hd : negb (truthy (body_data (body req))) &&
                 negb (strict_eq (body_type (body req)) (JStr "folder")) = false).
    { destruct Hdata as [-> | ->]; [reflexivity | apply andb_false_r]. }
    assert (Hf : is_folder parent = false) by by apply strict_eq_false.
    hrun. reflexivity.
  - intros (Hname & Hkind & Hdata) Hroot Hpid.
    split; [unfold parent_record; by rewrite Hpid|]. unfold postUpload.
    apply kinds_included in Hkind as [Ht Hk]. unfold kinds in Hk.
    apply strict_eq_false in Hroot. unfold parent_of in *.
    assert (Hd : negb (truthy (body_data (body req))) &&
                 negb (strict_eq (body_type (body req)) (JStr "folder")) = false).
    { destruct Hdata as [-> | ->]; [reflexivity | apply andb_false_r]. }
    hrun. reflexivity.
Qed.

(** ** Create: folders *)

Lemma fields_ok_checks (b : Body) :
  fields_ok b ->
  truthy (body_name b) = true ∧ truthy (body_type b) = true ∧
  bool_decide (body_type b ∈ [JStr "folder"; JStr "file"; JStr "image"]) = true ∧
  negb (truthy (body_data b)) && negb (strict_eq (body_type b) (JStr "folder")) = false.
Proof.
  intros (Hname & Hkind & Hdata). apply kinds_included in Hkind as [Ht Hk].
  repeat split; try assumption.
  destruct Hdata as [-> | ->]; [reflexivity | apply andb_false_r].
Qed.

(** The parent check lets the upload through. *)
Lemma parent_ok_check (w : World) (b : Body) :
  parent_ok w b ->
  (if negb (strict_eq (parent_of b) (JNum 0)) then
     pid ← new_ObjectId (parent_of b);
     parent ← files_findOne (by_id pid);
     parentFile ← non_null parent (error 400 "Parent not found");
     return_if (negb (is_folder parentFile)) (error 400 "Parent is not a folder")
   else mret tt) w = Next tt w.
Proof.
  intros [Hroot | (parent & Hrec & Hfolder)].
  - rewrite Hroot. reflexivity.
  - destruct (strict_eq (parent_of b) (JNum 0)); [reflexivity|].
    unfold parent_record in Hrec.
    destruct (ObjectId (parent_of b)) as [pid|] eqn:Hpid; [simpl in Hrec | discriminate].
    assert (Hf : is_folder parent = true) by by apply strict_eq_true.
    hrun. reflexivity.
Qed.

(** C6. A valid Folder create answers 201; the record it stores and the
    record it returns have no [localPath], and their [isPublic] is
    [false] when the request gives none. *)
Theorem postUpload_folder (w : World) (req : Request) (env : UploadEnv)
    (user : userDoc) :
  authenticated w req user ->
  fields_ok (body req) ->
  body_type (body req) = JStr "folder" ->
  parent_ok w (body req) ->
  insertOne_ok env = true ->
  let doc := stored user (body req) None (insertedId env) in
  let o := returned user (body req) (insertedId env) in
  run (postUpload req env) w = (Respond 201 o, set_files (files w ++ [doc]) w)
  ∧ localPath doc = None
  ∧ property "localPath" o = None
  ∧ (body_isPublic (body req) = JUndefined ->
     isPublic doc = JBool false ∧ property "isPublic" o = Some (JBool false)).
Proof.
  intros Hauth Hfields Hfolder Hparent Hinsert doc o. subst doc o.
  split; [|split; [reflexivity | split; [reflexivity |]]].
  - use_auth Hauth.
    apply fields_ok_checks in Hfields as (Hname & Ht & Hk & Hd).
    apply parent_ok_check in Hparent. unfold parent_of in Hparent.
    hstep_in Hparent. apply strict_eq_true in Hfolder.
    unfold postUpload. rewrite Hd. hrun. reflexivity.
  - intros Hpub. unfold stored, returned, public_of. rewrite Hpub. split; reflexivity.
Qed.

(** ** FetchContent: the access gate *)

(** C1 (the code departs from it). For an id the driver reads as an
    ObjectId, [getFile] answers 404 "Not found" when no record has the
    id, and on a private record when the request has no token, when the
    token does not resolve in the session store, and when it resolves to
    a user who is not the owner: never 401.  But an id that the driver
    does not read as an ObjectId, which is the id of no record either,
    is not answered 404: [ObjectId(fileId)] throws before the lookup and
    the handler ends on that exception without a response.  And on a
    private record that has no [userId], any resolved session makes the
    handler throw on [file.userId.toString()]. *)
Theorem getFile_private_not_found (w : World) (req : Request) :
  (ObjectId (JStr (params_id req)) = None ->
     run (getFile req) w = (Throw BSONTypeError, w))
  ∧ ∀ fid, ObjectId (JStr (params_id req)) = Some fid ->
      (List.find (by_id fid) (files w) = None ->
         run (getFile req) w = (error 404 "Not found", w))
      ∧ ∀ file, List.find (by_id fid) (files w) = Some file ->
          truthy (isPublic file) = false ->
          (no_session w req ->
             run (getFile req) w = (error 404 "Not found", w))
          ∧ ∀ session, resolves_to w req session ->
              (∀ owner, userId file = Some owner -> session ≠ toString owner ->
                 run (getFile req) w = (error 404 "Not found", w))
              ∧ (userId file = None ->
                 run (getFile req) w = (Throw TypeError, w)).
Proof.
  split; [intros Hfid; unfold getFile; hrun; reflexivity|].
  intros fid Hfid. split.
  - intros Hnone. unfold getFile. hrun. reflexivity.
  - intros file Hfile Hprivate. split.
    + intros Hno. unfold getFile. no_session_cases Hno; hrun; reflexivity.
    + intros session Hs. use_session Hs. split.
      * intros owner Howner Hdiff. apply String.eqb_neq in Hdiff.
        unfold getFile. hrun. reflexivity.
      * intros Howner. unfold getFile. hrun. reflexivity.
Qed.

(** The gate lets through a request that may read the file. *)
Lemma gate_passes (w : World) (req : Request) (file : fileDoc) :
  may_read w req file ->
  (if negb (truthy (isPublic file)) then
     token ← or_return (x_token req) (error 404 "Not found");
     session ← redisClient_get ("auth_" +:+ token);
     userId ← or_return session (error 404 "Not found");
     owner ← userId_toString file;
     return_if (negb (String.eqb userId owner)) (error 404 "Not found")
   else mret tt) w = Next tt w.
Proof.
  intros [Hpublic | (owner & Howner & Hs)].
  - rewrite Hpublic. reflexivity.
  - destruct (truthy (isPublic file)); [reflexivity|].
    use_session Hs. hrun. rewrite String.eqb_refl. reflexivity.
Qed.

Lemma getFile_serves (w : World) (req : Request) (fid : oid) (file : fileDoc)
    (path : string) (content : bytes) :
  ObjectId (JStr (params_id req)) = Some fid ->
  List.find (by_id fid) (files w) = Some file ->
  may_read w req file ->
  is_folder file = false ->
  filePath_of req file = Some path ->
  disk w !! path = Some content ->
  run (getFile req) w =
    (Pipe (from_option JStr (JBool false) (mime_lookup (name file))) content, w).
Proof.
  intros Hfid Hfile Hread Hfolder Hpath Hcontent.
  apply gate_passes in Hread. hstep_in Hread.
  assert (Hexists : fs_existsSync path w = true).
  { unfold fs_existsSync. rewrite Hcontent.
    apply orb_true_iff. left. apply bool_decide_eq_true. eauto. }
  unfold filePath_of in Hpath.
  unfold getFile. hrun. cbn [from_option]. hrun. cbn [mbind option_bind].
  hrun. reflexivity.
Qed.

Lemma getFile_missing_blob (w : World) (req : Request) (fid : oid) (file : fileDoc) :
  ObjectId (JStr (params_id req)) = Some fid ->
  List.find (by_id fid) (files w) = Some file ->
  may_read w req file ->
  is_folder file = false ->
  from_option (fun p => fs_existsSync p w) false (filePath_of req file) = false ->
  run (getFile req) w = (error 404 "Not found", w).
Proof.
  intros Hfid Hfile Hread Hfolder Hexists.
  apply gate_passes in Hread. hstep_in Hread.
  unfold filePath_of in Hexists.
  unfold getFile. hrun. reflexivity.
Qed.

(** C10. [getFile] takes the [size] parameter as it comes: for a file
    the request may read and a non-empty [size], whatever string it is,
    the path looked up is the record's [localPath] (printed as
    "undefined" when absent), an underscore and that string; a blob
    found there is served, and the answer is 404 "Not found" when
    nothing exists at that path. *)
Theorem getFile_size_not_validated (w : World) (req : Request) (fid : oid)
    (file : fileDoc) (size : string) :
  ObjectId (JStr (params_id req)) = Some fid ->
  List.find (by_id fid) (files w) = Some file ->
  may_read w req file ->
  is_folder file = false ->
  query_size req = Some size -> size ≠ "" ->
  let path := from_option id "undefined" (localPath file) +:+ "_" +:+ size in
  (∀ content, disk w !! path = Some content ->
     run (getFile req) w =
       (Pipe (from_option JStr (JBool false) (mime_lookup (name file))) content, w))
  ∧ (fs_existsSync path w = false ->
     run (getFile req) w = (error 404 "Not found", w)).
Proof.
  intros Hfid Hfile Hread Hfolder Hsize Hne path.
  assert (Hpath : filePath_of req file = Some path).
  { unfold filePath_of, present. rewrite Hsize.
    apply eqb_empty_false in Hne. rewrite Hne. reflexivity. }
  split.
  - intros content Hcontent. by eapply getFile_serves.
  - intros Hexists. eapply getFile_missing_blob; eauto.
    rewrite Hpath. exact Hexists.
Qed.

(** ** FetchContent: the content type *)

(** C9 (the code departs from it). When [mime.lookup] knows no type for
    the record's name, a successful [getFile] sets the Content-Type
    header to the [false] that [mime.lookup] returned, not to a generic
    binary type. *)
Theorem getFile_unknown_extension (w : World) (req : Request) (fid : oid)
    (file : fileDoc) (path : string) (content : bytes) :
  ObjectId (JStr (params_id req)) = Some fid ->
  List.find (by_id fid) (files w) = Some file ->
  may_read w req file ->
  is_folder file = false ->
  filePath_of req file = Some path ->
  disk w !! path = Some content ->
  mime_lookup (name file) = None ->
  run (getFile req) w = (Pipe (JBool false) content, w).
Proof.
  intros Hfid Hfile Hread Hfolder Hpath Hcontent Hmime.
  erewrite getFile_serves by eassumption. rewrite Hmime. reflexivity.
Qed.

(** With a known extension the header is the type [mime.lookup] gives. *)
Lemma getFile_known_extension (w : World) (req : Request) (fid : oid)
    (file : fileDoc) (path : string) (content : bytes) (mimeType : string) :
  ObjectId (JStr (params_id req)) = Some fid ->
  List.find (by_id fid) (files w) = Some file ->
  may_read w req file ->
  is_folder file = false ->
  filePath_of req file = Some path ->
  disk w !! path = Some content ->
  mime_lookup (name file) = Some mimeType ->
  run (getFile req) w = (Pipe (JStr mimeType) content, w).
Proof.
  intros Hfid Hfile Hread Hfolder Hpath Hcontent Hmime.
  erewrite getFile_serves by eassumption. rewrite Hmime. reflexivity.
Qed.

(** ** SetPublic *)

Lemma find_update_first (filter : fileDoc -> bool) (upd : fileDoc -> fileDoc)
    (l : list fileDoc) (f : fileDoc) :
  List.find filter l = Some f ->
  filter (upd f) = true ->
  List.find filter (update_first filter upd l) = Some (upd f).
Proof.
  intros Hfind Hkeep. induction l as [|g l IH]; [discriminate|].
  simpl in *. destruct (filter g) eqn:Hg.
  - injection Hfind as ->. simpl. by rewrite Hkeep.
  - simpl. rewrite Hg. auto.
Qed.

Lemma update_first_same (filter : fileDoc -> bool) (upd : fileDoc -> fileDoc)
    (l : list fileDoc) (f : fileDoc) :
  List.find filter l = Some f -> upd f = f -> update_first filter upd l = l.
Proof.
  intros Hfind Hsame. induction l as [|g l IH]; [reflexivity|].
  simpl in *. destruct (filter g).
  - injection Hfind as ->. by rewrite Hsame.
  - f_equal. auto.
Qed.

Lemma with_isPublic_same (v : jsval) (f : fileDoc) :
  isPublic f = v -> with_isPublic v f = f.
Proof. intros <-. by destruct f. Qed.

Lemma property_isPublic (v : bool) (f : fileDoc) :
  property "isPublic" (json_of_file (with_isPublic (JBool v) f)) = Some (JBool v).
Proof.
  unfold json_of_file, with_isPublic. simpl.
  destruct (userId f), (strict_eq (name f) JUndefined),
    (strict_eq (type f) JUndefined); reflexivity.
Qed.

Lemma set_files_same (w : World) : set_files (files w) w = w.
Proof. by destruct w. Qed.

(** One publish or unpublish on a file the caller owns. *)
Lemma setPublic_owned (w : World) (req : Request) (session : string)
    (fid uid : oid) (file : fileDoc) (value : bool) :
  resolves_to w req session ->
  ObjectId (JStr (params_id req)) = Some fid ->
  ObjectId (JStr session) = Some uid ->
  List.find (by_id_and_user fid uid) (files w) = Some file ->
  run (setPublic value req) w =
    (Respond 200 (json_of_file (with_isPublic (JBool value) file)),
     set_files (update_first (by_id_and_user fid uid)
                  (with_isPublic (JBool value)) (files w)) w).
Proof.
  intros Hs Hfid Huid Hfile. use_session Hs.
  unfold setPublic. hrun. reflexivity.
Qed.

(** C7. On a file the caller owns, publishing when it is already public
    (or unpublishing when it is already private) answers 200 with the
    record and changes nothing; and in any sequence of publish and
    unpublish requests every request answers 200 with a record whose
    [isPublic] is the value that request set, the last one included. *)
Theorem setPublic_idempotent (w : World) (req : Request) (session : string)
    (fid uid : oid) (file : fileDoc) :
  resolves_to w req session ->
  ObjectId (JStr (params_id req)) = Some fid ->
  ObjectId (JStr session) = Some uid ->
  List.find (by_id_and_user fid uid) (files w) = Some file ->
  (∀ value : bool, isPublic file = JBool value ->
     run (toggle req value) w = (Respond 200 (json_of_file file), w))
  ∧ (∀ ops : list bool,
       Forall2 (fun value r => ∃ o, r = Respond 200 o ∧
                                   property "isPublic" o = Some (JBool value))
         ops (run_all (toggle req <$> ops) w).1).
Proof.
  intros Hs Hfid Huid Hfile.
  assert (Htoggle : ∀ v, toggle req v = setPublic v req) by by intros [].
  split.
  - intros value Hvalue. rewrite Htoggle.
    erewrite setPublic_owned by eassumption.
    rewrite (with_isPublic_same _ _ Hvalue).
    erewrite update_first_same; eauto using with_isPublic_same.
    by rewrite set_files_same.
  - intros ops. revert w file Hs Hfile.
    induction ops as [|value ops IH]; intros w file Hs Hfile; [constructor|].
    cbn [fmap list_fmap run_all]. rewrite Htoggle.
    erewrite setPublic_owned by eassumption.
    match goal with |- context [run_all _ ?w'] =>
      specialize (IH w' (with_isPublic (JBool value) file)) end.
    destruct (run_all _ _) as [rs w''] eqn:Hrest. simpl.
    constructor.
    + eexists. split; [reflexivity | apply property_isPublic].
    + apply IH.
      * exact Hs.
      * apply find_update_first; [exact Hfile|].
        apply find_some in Hfile as [_ Hfile]. exact Hfile.
Qed.

(** ** The thumbnail worker *)

Lemma find_none_iff (fid uid : oid) (l : list fileDoc) :
  List.find (by_id_and_user fid uid) l = None <->
  ∀ f, f ∈ l -> ¬ (_id f = fid ∧ userId f = Some uid).
Proof.
  induction l as [|g l IH]; simpl.
  - split; [intros _ f Hf; by apply elem_of_nil in Hf | done].
  - destruct (by_id_and_user fid uid g) eqn:Hg.
    + split; [discriminate|]. intros Hall. exfalso.
      apply (Hall g); [left|].
      unfold by_id_and_user in Hg. apply andb_true_iff in Hg as [H1 H2].
      by apply bool_decide_eq_true in H1, H2.
    + rewrite IH. split.
      * intros Hall f Hf. apply elem_of_cons in Hf as [-> | Hf]; [|by apply Hall].
        intros [H1 H2]. unfold by_id_and_user in Hg.
        rewrite (bool_decide_eq_true_2 _ H1), (bool_decide_eq_true_2 _ H2) in Hg.
        discriminate.
      * intros Hall f Hf. apply Hall. by right.
Qed.


Lemma process_matched (job : Job) (env : JobEnv) (w : World) (file : fileDoc) :
  matched job w file ->
  let renditions := generateThumbnail env (disk w) (localPath file) <$> sizes in
  job_result (process job env w) =
    (if forallb (fun r => bool_decide (is_Some (rendition_written r))) renditions
     then Completed else Failed ThumbnailError)
  ∧ disk (job_world (process job env w)) = foldl write_rendition (disk w) renditions.
Proof.
  intros (Hf & Hu & fid & uid & Hfid & Huid & Hfind). unfold process.
  rewrite Hf, Hu, Hfid, Huid, Hfind. split; reflexivity.
Qed.

Lemma written_path (env : JobEnv) (d : gmap string bytes) (path : option string)
    (width : Z) (p : string) (thumbnail : bytes) :
  rendition_written (generateThumbnail env d path width) = Some (p, thumbnail) ->
  p = from_option id "undefined" path +:+ "_" +:+ pretty width.
Proof.
  unfold generateThumbnail.
  destruct (_ ≫= _) as [t|]; simpl; [|discriminate].
  destruct (thumbnail_writeFile_ok env width); [|discriminate].
  by intros [= <- _].
Qed.

Lemma is_Some_bool {A} (o : option A) :
  bool_decide (is_Some o) = match o with Some _ => true | None => false end.
Proof. destruct o; [by apply bool_decide_eq_true | by apply bool_decide_eq_false, is_Some_None]. Qed.

Lemma thumbnail_paths_differ (base : string) (a b : Z) :
  pretty a ≠ pretty b -> base +:+ "_" +:+ pretty a ≠ base +:+ "_" +:+ pretty b.
Proof. intros Hne E. apply append_inj_r in E. by injection E. Qed.

(** C2, as the code has it. For a job whose record is found: the
    rendition of each width is on disk after the job whenever its own
    generation and write succeeded, whatever happened to the other two;
    the job completes exactly when the three widths succeed, and fails
    as soon as one of them fails. *)
Theorem process_fails_if_any_width_fails (job : Job) (env : JobEnv) (w : World)
    (file : fileDoc) :
  matched job w file ->
  let written width :=
    rendition_written (generateThumbnail env (disk w) (localPath file) width) in
  (∀ width, width ∈ sizes ->
     ∀ p thumbnail, written width = Some (p, thumbnail) ->
       disk (job_world (process job env w)) !! p = Some thumbnail)
  ∧ (job_result (process job env w) = Completed <->
     ∀ width, width ∈ sizes -> is_Some (written width))
  ∧ (job_result (process job env w) = Failed ThumbnailError <->
     ∃ width, width ∈ sizes ∧ written width = None).
Proof.
  intros Hmatched written.
  destruct (process_matched job env w file Hmatched) as [Hresult Hdisk].
  rewrite Hresult, Hdisk. clear Hresult Hdisk.
  cbn [sizes fmap list_fmap foldl forallb]. unfold write_rendition.
  pose proof (written_path env (disk w) (localPath file) 500) as P5.
  pose proof (written_path env (disk w) (localPath file) 250) as P2.
  pose proof (written_path env (disk w) (localPath file) 100) as P1.
  fold (written 500) in *. fold (written 250) in *. fold (written 100) in *.
  assert (H52 : ∀ base, base +:+ "_" +:+ pretty 500 ≠ base +:+ "_" +:+ pretty 250)
    by (intros base; apply thumbnail_paths_differ; by vm_compute).
  assert (H51 : ∀ base, base +:+ "_" +:+ pretty 500 ≠ base +:+ "_" +:+ pretty 100)
    by (intros base; apply thumbnail_paths_differ; by vm_compute).
  assert (H21 : ∀ base, base +:+ "_" +:+ pretty 250 ≠ base +:+ "_" +:+ pretty 100)
    by (intros base; apply thumbnail_paths_differ; by vm_compute).
  assert (Hsizes : ∀ P : Z -> Prop,
            (∀ width, width ∈ sizes -> P width) <-> P 500 ∧ P 250 ∧ P 100).
  { intros P. unfold sizes. split.
    - intros Hall. repeat split; apply Hall; set_solver.
    - intros (H5 & H2 & H1) width Hin.
      rewrite !elem_of_cons, elem_of_nil in Hin.
      by destruct Hin as [->|[->|[->|[]]]]. }
  split; [|split].
  - match goal with |- ∀ width, _ -> ∀ p t, _ -> ?d !! p = _ =>
      apply (Hsizes (fun width => ∀ p t, written width = Some (p, t) -> d !! p = Some t))
    end.
    destruct (written 500) as [[p5 t5]|], (written 250) as [[p2 t2]|],
      (written 100) as [[p1 t1]|];
      try rewrite (P5 _ _ eq_refl); try rewrite (P2 _ _ eq_refl);
      try rewrite (P1 _ _ eq_refl);
      (split; [|split]); intros p thumbnail [= <- <-] || intros p thumbnail [=];
      rewrite ?lookup_insert_eq; try reflexivity;
      repeat (rewrite lookup_insert_ne by (apply H52 || apply H51 || apply H21 ||
                apply not_eq_sym; (apply H52 || apply H51 || apply H21)));
      rewrite ?lookup_insert_eq; reflexivity.
  - rewrite (Hsizes (fun width => is_Some (written width))).
    rewrite !is_Some_bool.
    destruct (written 500), (written 250), (written 100); simpl;
      (split; [first [discriminate | intros _; repeat split; eauto] |]);
      try reflexivity;
      intros (H5 & H2 & H1);
      first [by destruct H5 | by destruct H2 | by destruct H1].
  - split.
    + rewrite !is_Some_bool.
      destruct (written 500) eqn:E5; [|exists 500; split; [repeat constructor | done]].
      destruct (written 250) eqn:E2; [|exists 250; split; [repeat constructor | done]].
      destruct (written 100) eqn:E1; [|exists 100; split; [repeat constructor | done]].
      done.
    + intros (width & Hin & Hnone). unfold sizes in Hin.
      rewrite !elem_of_cons, elem_of_nil in Hin.
      rewrite !is_Some_bool.
      destruct Hin as [->|[->|[->|[]]]]; rewrite Hnone;
        destruct (written 500), (written 250), (written 100); reflexivity.
Qed.

(** ** Create: what is persisted *)

(** What a 201 of Create tells. *)
Lemma postUpload_created (w w' : World) (req : Request) (env : UploadEnv) (o : jobject) :
  run (postUpload req env) w = (Respond 201 o, w') ->
  ∃ user path,
    authenticated w req user ∧ fields_ok (body req) ∧
    o = returned user (body req) (insertedId env) ∧
    files w' = files w ++ [stored user (body req) path (insertedId env)] ∧
    users w' = users w ∧ redis w' = redis w ∧
    ((path = None ∧ body_type (body req) = JStr "folder" ∧
      disk w' = disk w ∧ fileQueue w' = fileQueue w)
     ∨ (∃ payload, path = Some (path_join (folderPath_of w) (uuidv4 env)) ∧
          body_type (body req) ≠ JStr "folder" ∧
          body_data (body req) = JStr payload ∧
          disk w' = <[path_join (folderPath_of w) (uuidv4 env) :=
                       Buffer_from_base64 payload]> (disk w) ∧
          fileQueue w' =
            (if strict_eq (body_type (body req)) (JStr "image")
             then fileQueue w ++ [queued_job user (insertedId env)]
             else fileQueue w))).
Proof.
  unfold postUpload. hstep.
  repeat (case_match; simplify_eq; hstep); try discriminate.
  all: intros [= <- <-]; plain_bools.
  all: match goal with Hu : List.find _ (users _) = Some ?u |- _ => exists u end; eexists.
  all: split;
    [ do 2 eexists; split; [eexists; repeat split; eassumption | split; eassumption] |].
  all: split;
    [ split; [assumption | split;
        [ by apply (bool_decide_eq_true_1 (body_type (body req) ∈ kinds))
        | first [right; by apply strict_eq_true | left; congruence] ] ] |].
  all: do 4 (split; [reflexivity|]).
  all: first
    [ left; repeat split; try reflexivity; by apply strict_eq_true
    | right; eexists; unfold folderPath_of;
      repeat match goal with Hp : present (FOLDER_PATH _) = _ |- _ => rewrite Hp end;
      repeat split; try reflexivity; try eassumption; by apply strict_eq_false ].
Qed.

(** How a Create ends when it does not answer 201. *)
Lemma postUpload_failed (w : World) (req : Request) (env : UploadEnv) :
  let (r, w') := run (postUpload req env) w in
  (∃ o, r = Respond 201 o)
  ∨ ((∀ o, r ≠ Respond 201 o) ∧ nothing_persisted w w')
  ∨ (r = Throw MongoError ∧ insertOne_ok env = false ∧ orphan_blob w w'
     ∧ blob_without_record w w' req env).
Proof.
  unfold postUpload. hstep.
  repeat (case_match; simplify_eq; hstep).
  all: first
    [ left; eexists; reflexivity
    | right; left; split; [discriminate | split; reflexivity]
    | right; right; split; [reflexivity|]; split; [done|]; split;
      [ split; [reflexivity | simpl; eauto]
      | split; [reflexivity|]; split; [by apply strict_eq_false|];
        eexists; split; [eassumption|]; unfold folderPath_of;
        repeat match goal with Hp : present (FOLDER_PATH _) = _ |- _ => rewrite Hp end;
        reflexivity ] ].
Qed.

(** C3, as the code has it. A Create ends in one of three ways: it
    answers 201, the record of the request is stored, and for a file or
    an image the decoding of [data] is on disk at the record's
    [localPath]; or it fails and neither a record nor a blob is kept; or
    the insert into the document store is rejected after the blob was
    written, and the blob stays on disk without a record.  A record is
    never stored without its blob. *)
Theorem postUpload_persistence (w : World) (req : Request) (env : UploadEnv) :
  let (r, w') := run (postUpload req env) w in
  (∃ o, r = Respond 201 o ∧ fully_persisted w w' ∧ persisted_as_requested w w' req env)
  ∨ ((∀ o, r ≠ Respond 201 o) ∧ nothing_persisted w w')
  ∨ (r = Throw MongoError ∧ insertOne_ok env = false ∧ orphan_blob w w'
     ∧ blob_without_record w w' req env).
Proof.
  pose proof (postUpload_failed w req env) as Hfailed.
  destruct (run (postUpload req env) w) as [r w'] eqn:Hrun.
  destruct Hfailed as [(o & ->) | Hfailed]; [left | by right].
  apply postUpload_created in Hrun
    as (user & path & Hauth & _ & _ & Hfiles & _ & _ & Hcase).
  exists o. split; [reflexivity|]. split.
  - exists (stored user (body req) path (insertedId env)). split; [exact Hfiles|].
    intros Hkind.
    destruct Hcase as [(_ & Hfolder & _) | (payload & -> & _ & _ & Hdisk & _)]; [done|].
    eexists. split; [reflexivity|]. rewrite Hdisk, lookup_insert_eq. eauto.
  - exists user. split; [exact Hauth|].
    destruct Hcase as [(-> & Hfolder & Hdisk & _)
                      | (payload & -> & Hkind & Hdata & Hdisk & _)].
    + by rewrite (proj2 (strict_eq_true _ _) Hfolder).
    + rewrite (proj2 (strict_eq_false _ _) Hkind). by exists payload.
Qed.

(** ** List *)

(** The listing of the root is empty when no record of the user has the
    string "0" as its [parentId]: the number [0] that Create stores for
    the root is another value. *)
Lemma getIndex_root_empty (w : World) (req : Request) (session : string) (uid : oid) :
  resolves_to w req session ->
  ObjectId (JStr session) = Some uid ->
  present (query_parentId req) = false ∨ query_parentId req = Some "0" ->
  (∀ f, f ∈ files w -> userId f = Some uid -> parentId f ≠ JStr "0") ->
  run (getIndex req) w =
    (match page_skip req with
     | Some _ => RespondList 200 []
     | None => Throw MongoError
     end, w).
Proof.
  intros Hs Huid Hparent Hnone. use_session Hs.
  assert (Hfilter : ∀ l, (∀ f, f ∈ l -> userId f = Some uid -> parentId f ≠ JStr "0") ->
            List.filter (by_user_and_parent uid (JStr "0")) l = []).
  { induction l as [|f l IH]; intros Hl; [reflexivity|]. simpl.
    rewrite IH by (intros g Hg; apply Hl; by right).
    unfold by_user_and_parent. destruct (bool_decide (userId f = Some uid)) eqn:Hu; [|reflexivity].
    apply bool_decide_eq_true in Hu. simpl.
    by rewrite (proj2 (strict_eq_false _ _) (Hl f ltac:(by left) Hu)). }
  assert (Hp : (if present (query_parentId req)
                then default "" (query_parentId req) else "0") = "0").
  { destruct Hparent as [-> | ->]; reflexivity. }
  unfold getIndex, page_skip. rewrite Hp.
  destruct (skip_count _) as [n|] eqn:Hskip; hrun; [|reflexivity].
  rewrite (Hfilter _ Hnone), drop_nil. reflexivity.
Qed.

(** An upload with no [parentId] stores the number [0]. *)
Lemma postUpload_root_parent (w : World) (req : Request) (env : UploadEnv) :
  body_parentId (body req) = JUndefined ->
  ∀ f, f ∈ files (run (postUpload req env) w).2 -> f ∈ files w ∨ parentId f = JNum 0.
Proof.
  intros Hroot. unfold postUpload. rewrite Hroot. hstep.
  repeat (case_match; simplify_eq; hstep).
  all: intros f Hf; simpl in Hf; try (by left).
  all: apply elem_of_app in Hf as [Hf | Hf%list_elem_of_singleton];
    [by left | right; by subst f].
Qed.

(** However many files are uploaded to the root, the listing of the root
    does not show them. *)
Lemma root_uploads_never_listed (w : World) (uploads : list (Request * UploadEnv))
    (req : Request) (session : string) (uid : oid) :
  Forall (fun u => body_parentId (body u.1) = JUndefined) uploads ->
  (∀ f, f ∈ files w -> parentId f ≠ JStr "0") ->
  let w' := (run_all ((fun u => postUpload u.1 u.2) <$> uploads) w).2 in
  resolves_to w' req session ->
  ObjectId (JStr session) = Some uid ->
  present (query_parentId req) = false ∨ query_parentId req = Some "0" ->
  run (getIndex req) w' =
    (match page_skip req with
     | Some _ => RespondList 200 []
     | None => Throw MongoError
     end, w').
Proof.
  intros Huploads Hw w' Hs Huid Hparent.
  eapply getIndex_root_empty; eauto.
  intros f Hf _. revert f Hf. subst w'. clear Hs.
  revert w Hw. induction Huploads as [|[rq env] uploads Hroot _ IH]; intros w Hw.
  - exact Hw.
  - cbn [fmap list_fmap run_all fst snd].
    pose proof (postUpload_root_parent w rq env Hroot) as Hstep.
    destruct (run (postUpload rq env) w) as [r w1]. specialize (IH w1).
    destruct (run_all _ w1) as [rs w2]. apply IH.
    intros f Hf. destruct (Hstep f Hf) as [Hold | ->]; [by apply Hw | discriminate].
Qed.

End Properties.

(** * The scenarios of the specification, run *)

(** C4 (the code departs from it). Alice uploads 25 files with no
    [parentId]: the 25 requests answer 201 and the 25 records are stored
    with the number [0] as [parentId].  Listing the root, page 0 or
    page 1, then returns no record at all: the filter of [getIndex]
    compares [parentId] with the string "0". *)
Theorem root_listing_misses_root_uploads :
  let (created, w) := run_all (root_upload <$> seq 0 25) empty_world in
  forallb is_created created = true
  ∧ length created = 25%nat
  ∧ length (files w) = 25%nat
  ∧ forallb (fun f => bool_decide (userId f = Some alice ∧ parentId f = JNum 0))
      (files w) = true
  ∧ run (@getIndex test_platform (listing (Some "tokenA") None None)) w
      = (RespondList 200 [], w)
  ∧ run (@getIndex test_platform (listing (Some "tokenA") (Some "0") (Some "0"))) w
      = (RespondList 200 [], w)
  ∧ run (@getIndex test_platform (listing (Some "tokenA") (Some "0") (Some "1"))) w
      = (RespondList 200 [], w).
Proof. vm_compute. repeat split; reflexivity. Qed.

(** * The theorems at concrete inputs *)

Lemma tokenA_resolves (req : Request) (w : World) :
  x_token req = Some "tokenA" -> redis w = redis test_world ->
  resolves_to w req (hex alice).
Proof. intros Ht Hr. exists "tokenA". rewrite Hr. by repeat split. Qed.

Lemma tokenB_resolves (req : Request) (w : World) :
  x_token req = Some "tokenB" -> redis w = redis test_world ->
  resolves_to w req (hex bob).
Proof. intros Ht Hr. exists "tokenB". rewrite Hr. by repeat split. Qed.

Lemma alice_authenticated (b : Body) :
  @authenticated test_platform test_world (upload (Some "tokenA") b)
    {| user_id := alice |}.
Proof.
  exists (hex alice), alice. split; [|split; reflexivity].
  exists "tokenA". repeat split; done.
Qed.

(** C1: Alice's private file, asked for without a token, with a token
    that is not in the session store, and with Bob's token; an id that
    no record has; "nonexistent", which is not an id; and a sample file
    of a freshly seeded database, asked for by Alice. *)
Lemma getFile_private_not_found_witness :
  let answer req := fst (run (@getFile test_platform req) test_world) in
  answer (on_file None (hex file1) None) = error 404 "Not found"
  ∧ answer (on_file (Some "stale") (hex file1) None) = error 404 "Not found"
  ∧ answer (on_file (Some "tokenB") (hex file1) None) = error 404 "Not found"
  ∧ answer (on_file (Some "tokenA") "444444444444444444444444" None)
      = error 404 "Not found"
  ∧ answer (on_file None "nonexistent" None) = Throw BSONTypeError
  ∧ fst (run (@getFile test_platform (on_file (Some "tokenA") (hex (nth_id 3)) None))
           (initializeData seeds empty_world)) = Throw TypeError.
Proof.
  pose proof (fun req => @getFile_private_not_found test_platform test_world req) as T.
  pose proof (fun token => proj2 (proj2 (T (on_file token (hex file1) None)) file1 eq_refl)
                             notes eq_refl eq_refl) as P.
  cbv zeta. split; [|split; [|split; [|split; [|split]]]].
  - rewrite (proj1 (P None)); [reflexivity | by left].
  - rewrite (proj1 (P (Some "stale"))); [reflexivity|].
    right. by exists "stale".
  - rewrite (proj1 (proj2 (P (Some "tokenB")) (hex bob)
                      ltac:(by apply tokenB_resolves)) alice eq_refl);
      [reflexivity | discriminate].
  - rewrite (proj1 (proj2 (T (on_file (Some "tokenA") "444444444444444444444444" None))
                      (Oid "444444444444444444444444") eq_refl) eq_refl).
    reflexivity.
  - rewrite (proj1 (T (on_file None "nonexistent" None)) eq_refl). reflexivity.
  - rewrite (proj2 (proj2 (proj2 (proj2 (@getFile_private_not_found test_platform
                       (initializeData seeds empty_world)
                       (on_file (Some "tokenA") (hex (nth_id 3)) None))
                     (nth_id 3) eq_refl)
                   (sample_file (nth_id 3) 3) ltac:(vm_compute; reflexivity) eq_refl)
                 (hex alice) ltac:(by apply tokenA_resolves)) eq_refl).
    reflexivity.
Defined.

(** C5: the five rejections, on uploads by Alice, and her uploads with
    "abc" and with "0" as [parentId]. *)
Lemma postUpload_validation_witness :
  let answer b := run (@postUpload test_platform (upload (Some "tokenA") b) test_env)
                    test_world in
  answer (fields JUndefined (JStr "file") JUndefined (JStr "aGk="))
    = (error 400 "Missing name", test_world)
  ∧ answer (fields (JStr "a") (JStr "video") JUndefined (JStr "aGk="))
    = (error 400 "Missing type", test_world)
  ∧ answer (fields (JStr "a") (JStr "image") JUndefined JUndefined)
    = (error 400 "Missing data", test_world)
  ∧ answer (fields (JStr "a") (JStr "file") (JStr "444444444444444444444444") (JStr "aGk="))
    = (error 400 "Parent not found", test_world)
  ∧ answer (fields (JStr "a") (JStr "file") (JStr (hex file1)) (JStr "aGk="))
    = (error 400 "Parent is not a folder", test_world)
  ∧ answer (fields (JStr "a") (JStr "file") (JStr "abc") (JStr "aGk="))
    = (Throw BSONTypeError, test_world)
  ∧ answer (fields (JStr "a") (JStr "file") (JStr "0") (JStr "aGk="))
    = (Throw BSONTypeError, test_world).
Proof.
  pose proof (fun b => @postUpload_validation test_platform test_world
                         (upload (Some "tokenA") b) test_env _ (alice_authenticated b)) as T.
  cbv zeta. split; [|split; [|split; [|split; [|split; [|split]]]]].
  - apply (T (fields JUndefined (JStr "file") JUndefined (JStr "aGk="))). reflexivity.
  - apply (T (fields (JStr "a") (JStr "video") JUndefined (JStr "aGk="))); [reflexivity|].
    apply (bool_decide_eq_false_1 (JStr "video" ∈ kinds)). by vm_compute.
  - apply (T (fields (JStr "a") (JStr "image") JUndefined JUndefined));
      [reflexivity | | reflexivity | discriminate].
    unfold kinds. repeat constructor.
  - apply (T (fields (JStr "a") (JStr "file") (JStr "444444444444444444444444")
                (JStr "aGk=")))
      with (pid := Oid "444444444444444444444444");
      [| discriminate | reflexivity | reflexivity].
    split; [reflexivity | split; [| by left]].
    unfold kinds. repeat constructor.
  - apply (T (fields (JStr "a") (JStr "file") (JStr (hex file1)) (JStr "aGk=")))
      with (parent := notes);
      [| discriminate | reflexivity | discriminate].
    split; [reflexivity | split; [| by left]].
    unfold kinds. repeat constructor.
  - apply (T (fields (JStr "a") (JStr "file") (JStr "abc") (JStr "aGk=")));
      [| discriminate | reflexivity].
    split; [reflexivity | split; [| by left]].
    unfold kinds. repeat constructor.
  - apply (T (fields (JStr "a") (JStr "file") (JStr "0") (JStr "aGk=")));
      [| discriminate | reflexivity].
    split; [reflexivity | split; [| by left]].
    unfold kinds. repeat constructor.
Defined.

(** C6: Alice creates a folder in the root, without [isPublic]. *)
Lemma postUpload_folder_witness :
  let b := fields (JStr "photos") (JStr "folder") JUndefined JUndefined in
  let (r, w') := run (@postUpload test_platform (upload (Some "tokenA") b) test_env)
                   test_world in
  (∃ o, r = Respond 201 o ∧ property "localPath" o = None ∧
        property "isPublic" o = Some (JBool false))
  ∧ (∃ doc, files w' = files test_world ++ [doc] ∧ localPath doc = None ∧
            isPublic doc = JBool false).
Proof.
  intros b.
  destruct (@postUpload_folder test_platform test_world (upload (Some "tokenA") b)
              test_env _ (alice_authenticated b)) as (Hrun & Hpath & Hprop & Hpublic).
  - split; [reflexivity | split; [|by right]]. unfold kinds. repeat constructor.
  - reflexivity.
  - by left.
  - reflexivity.
  - rewrite Hrun. destruct (Hpublic eq_refl) as [Hdoc Ho]. split; eauto.
Defined.

(** C7: Alice publishes her file twice, unpublishes it and publishes it
    again; and publishing Bob's public image once more changes nothing. *)
Lemma setPublic_idempotent_witness :
  let req := on_file (Some "tokenA") (hex file1) None in
  Forall2 (fun value r => ∃ o, r = Respond 200 o ∧
                              property "isPublic" o = Some (JBool value))
    [true; true; false; true]
    (run_all (@toggle test_platform req <$> [true; true; false; true]) test_world).1
  ∧ ∃ o, run (@toggle test_platform (on_file (Some "tokenB") (hex file3) None) true)
           test_world = (Respond 200 o, test_world).
Proof.
  intros req. split.
  - refine (proj2 (@setPublic_idempotent test_platform test_world req (hex alice)
                     file1 alice notes _ eq_refl eq_refl eq_refl) _).
    exists "tokenA". repeat split; done.
  - eexists.
    refine (proj1 (@setPublic_idempotent test_platform test_world
                     (on_file (Some "tokenB") (hex file3) None) (hex bob)
                     file3 bob picture _ eq_refl eq_refl eq_refl) true eq_refl).
    exists "tokenB". repeat split; done.
Defined.

(** C10: Bob's public image asked for with [size=anything], where a blob
    happens to exist, and with [size=500], where none does. *)
Lemma getFile_size_not_validated_witness :
  run (@getFile test_platform (on_file None (hex file3) (Some "anything"))) test_world
    = (Pipe (JBool false) [Byte.x2a], test_world)
  ∧ run (@getFile test_platform (on_file None (hex file3) (Some "500"))) test_world
    = (error 404 "Not found", test_world).
Proof.
  pose proof (fun size Hsize Hne =>
    @getFile_size_not_validated test_platform test_world
      (on_file None (hex file3) (Some size)) file3 picture size
      eq_refl eq_refl (or_introl eq_refl) eq_refl Hsize Hne) as T.
  split.
  - apply (proj1 (T "anything" eq_refl ltac:(discriminate))). reflexivity.
  - apply (proj2 (T "500" eq_refl ltac:(discriminate))). reflexivity.
Defined.

(** C9: Bob's public image is named "picture", without an extension. *)
Lemma getFile_unknown_extension_witness :
  run (@getFile test_platform (on_file None (hex file3) None)) test_world
    = (Pipe (JBool false) [Byte.x89; Byte.x50], test_world).
Proof.
  apply (@getFile_unknown_extension test_platform test_world
           (on_file None (hex file3) None) file3 picture "/tmp/files_manager/u3");
    try reflexivity.
  by left.
Defined.


Lemma image_job_matched : @matched test_platform image_job test_world picture.
Proof.
  split; [reflexivity | split; [reflexivity|]].
  exists file3, bob. split; [reflexivity | split; reflexivity].
Qed.

(** C2: the job of Bob's image when every write goes through. *)
Lemma process_fails_if_any_width_fails_witness :
  job_result (@process test_platform image_job all_writes_ok test_world) = Completed.
Proof.
  apply (@process_fails_if_any_width_fails test_platform image_job all_writes_ok
           test_world picture image_job_matched).
  intros width Hin. unfold sizes in Hin. rewrite !elem_of_cons, elem_of_nil in Hin.
  destruct Hin as [->|[->|[->|[]]]]; vm_compute; by eexists.
Defined.

(** * Where the code departs from the statements *)

(** C2 as stated fails. The write of the 500 rendition of Bob's image is
    rejected and the other two go through: the job fails although two
    widths out of three succeeded. *)
Lemma one_rejected_width_fails_the_job :
  ¬ (@widths_independent test_platform image_job write_500_rejected test_world
     ∧ @fails_only_if_all_fail test_platform image_job write_500_rejected test_world).
Proof.
  intros [_ Hall].
  specialize (Hall picture ThumbnailError image_job_matched eq_refl 250).
  assert (Hin : 250 ∈ sizes) by (unfold sizes; repeat constructor).
  specialize (Hall Hin). vm_compute in Hall. discriminate.
Qed.

(** What the job leaves in that run. *)
Lemma one_rejected_width_run :
  let r := @process test_platform image_job write_500_rejected test_world in
  job_result r = Failed ThumbnailError
  ∧ disk (job_world r) !! "/tmp/files_manager/u3_500" = None
  ∧ disk (job_world r) !! "/tmp/files_manager/u3_250" = Some [Byte.x89; Byte.x50]
  ∧ disk (job_world r) !! "/tmp/files_manager/u3_100" = Some [Byte.x89; Byte.x50].
Proof. vm_compute. repeat split; reflexivity. Qed.

(** C3 as stated fails. Alice uploads a file and the document store
    rejects the insert: the handler throws, no record is stored, and the
    blob written just before stays on disk. *)
Lemma rejected_insert_leaves_blob :
  ¬ @atomic_create test_platform test_world
      (upload (Some "tokenA") (fields (JStr "a.txt") (JStr "file") JUndefined (JStr "aGk=")))
      insert_rejected.
Proof.
  unfold atomic_create.
  destruct (run _ _) as [r w'] eqn:E. vm_compute in E. injection E as <- <-.
  intros [(o & Ho & _) | (_ & _ & Hdisk)]; [discriminate|].
  apply (f_equal (fun d : gmap string bytes => d !! "/tmp/files_manager/u9")) in Hdisk.
  vm_compute in Hdisk. discriminate.
Qed.

(** What the upload leaves in that run. *)
Lemma rejected_insert_run :
  let (r, w') := run (@postUpload test_platform
                        (upload (Some "tokenA")
                           (fields (JStr "a.txt") (JStr "file") JUndefined (JStr "aGk=")))
                        insert_rejected) test_world in
  r = Throw MongoError
  ∧ files w' = files test_world
  ∧ disk test_world !! "/tmp/files_manager/u9" = None
  ∧ disk w' !! "/tmp/files_manager/u9" = Some [Byte.x68; Byte.x69].
Proof. vm_compute. repeat split; reflexivity. Qed.

(** * Further properties of the handlers, the worker and the database client *)

Section Further.
Context `{Platform}.

(** ** Sessions *)

(** X1. Without a token, or with a token the session store does not
    resolve, Create, Get, List, Publish and Unpublish all answer 401
    "Unauthorized" and leave every store as it was. *)
Theorem no_session_unauthorized (w : World) (req : Request) (env : UploadEnv) :
  no_session w req ->
  run (postUpload req env) w = (error 401 "Unauthorized", w)
  ∧ run (getShow req) w = (error 401 "Unauthorized", w)
  ∧ run (getIndex req) w = (error 401 "Unauthorized", w)
  ∧ run (putPublish req) w = (error 401 "Unauthorized", w)
  ∧ run (putUnpublish req) w = (error 401 "Unauthorized", w).
Proof.
  intros Hno.
  unfold postUpload, getShow, getIndex, putPublish, putUnpublish, setPublic.
  no_session_cases Hno; hrun; repeat split; reflexivity.
Qed.

(** X2. Create looks the user of the session up: when no document of
    the [users] collection has the id the session resolves to, Create
    answers 401 and stores nothing, whatever the body. *)
Theorem postUpload_unknown_user (w : World) (req : Request) (env : UploadEnv)
    (session : string) (uid : oid) :
  resolves_to w req session ->
  ObjectId (JStr session) = Some uid ->
  (∀ u, u ∈ users w -> user_id u ≠ uid) ->
  run (postUpload req env) w = (error 401 "Unauthorized", w).
Proof.
  intros Hs Huid Hnone. use_session Hs.
  assert (Hfind : List.find (fun u => bool_decide (user_id u = uid)) (users w) = None).
  { induction (users w) as [|u us IH]; [reflexivity|]. simpl.
    rewrite bool_decide_eq_false_2 by (apply Hnone; by left).
    apply IH. intros u' Hu'. apply Hnone. by right. }
  unfold postUpload. hrun. reflexivity.
Qed.

(** ** Get *)

(** X3. Whenever Get answers 200, the record it returns is a record of
    the collection that has the id of the request and is owned by the
    user of the session; no store has changed. *)
Theorem getShow_only_own (w w' : World) (req : Request) (o : jobject) :
  run (getShow req) w = (Respond 200 o, w') ->
  w' = w ∧
  ∃ session fid uid file,
    resolves_to w req session ∧
    ObjectId (JStr (params_id req)) = Some fid ∧
    ObjectId (JStr session) = Some uid ∧
    file ∈ files w ∧ _id file = fid ∧ userId file = Some uid ∧
    o = json_of_file file.
Proof.
  unfold getShow. hstep.
  repeat (case_match; simplify_eq; hstep); try discriminate.
  intros [= <- <-]. split; [reflexivity|].
  match goal with Hf : List.find _ _ = Some ?f |- _ =>
    apply find_some in Hf as [Hin Hby]; exists a0, a1, a2, f end.
  unfold by_id_and_user in Hby. apply andb_true_iff in Hby as [Hid Hu].
  apply bool_decide_eq_true in Hid, Hu.
  repeat split; try done.
  - exists a. repeat split; try done; by apply String.eqb_neq.
  - by apply list_elem_of_In.
Qed.

(** X4. A file of another user is answered like a file that does not
    exist: for a session, when the driver reads the id of the request
    and the value of the session as ObjectIds, Get answers 404 "Not
    found" when no record has both that id and that user as owner.  When
    the driver does not read the id of the request as an ObjectId (as
    for "nonexistent"), or the value of the session, [ObjectId] throws
    and Get ends on that exception without a response.  No store
    changes. *)
Theorem getShow_not_owner (w : World) (req : Request) (session : string) :
  resolves_to w req session ->
  (ObjectId (JStr (params_id req)) = None ->
     run (getShow req) w = (Throw BSONTypeError, w))
  ∧ ∀ fid, ObjectId (JStr (params_id req)) = Some fid ->
      (ObjectId (JStr session) = None ->
         run (getShow req) w = (Throw BSONTypeError, w))
      ∧ ∀ uid, ObjectId (JStr session) = Some uid ->
          (∀ f, f ∈ files w -> ¬ (_id f = fid ∧ userId f = Some uid)) ->
          run (getShow req) w = (error 404 "Not found", w).
Proof.
  intros Hs. use_session Hs. split; [|intros fid Hfid; split].
  - intros Hfid. unfold getShow. hrun. reflexivity.
  - intros Huid. unfold getShow. hrun. reflexivity.
  - intros uid Huid Hnone. apply find_none_iff in Hnone.
    unfold getShow. hrun. reflexivity.
Qed.

(** ** The handlers that only read *)

(** X5. Get, List and FetchContent never change a store, whatever the
    request and whatever they answer. *)
Theorem readers_change_nothing (w : World) (req : Request) :
  (run (getShow req) w).2 = w
  ∧ (run (getIndex req) w).2 = w
  ∧ (run (getFile req) w).2 = w.
Proof.
  split; [|split].
  - unfold getShow. hstep. repeat (case_match; simplify_eq; hstep); reflexivity.
  - unfold getIndex. hstep. repeat (case_match; simplify_eq; hstep); reflexivity.
  - unfold getFile. hstep. repeat (case_match; simplify_eq; hstep); reflexivity.
Qed.

(** X6. A folder has no content: for a folder the request may read,
    FetchContent answers 400, with or without a [size]. *)
Theorem getFile_folder (w : World) (req : Request) (fid : oid) (file : fileDoc) :
  ObjectId (JStr (params_id req)) = Some fid ->
  List.find (by_id fid) (files w) = Some file ->
  may_read w req file ->
  type file = JStr "folder" ->
  run (getFile req) w = (error 400 "A folder doesn't have content", w).
Proof.
  intros Hfid Hfile Hread Hfolder.
  apply gate_passes in Hread. hstep_in Hread.
  assert (Hf : is_folder file = true) by by apply strict_eq_true.
  unfold getFile. hrun. reflexivity.
Qed.

(** ** Create: files and images *)

(** X7. A valid upload of a file or an image whose two writes go through
    answers 201; the record is appended with a [localPath] made of the
    configured folder and a fresh name, the blob at that path is the
    base64 decoding of [data], the response does not show the path, and
    one job naming the owner and the record is queued when the type is
    image, none otherwise. *)
Theorem postUpload_file_stored (w : World) (req : Request) (env : UploadEnv)
    (user : userDoc) (payload : string) :
  authenticated w req user ->
  fields_ok (body req) ->
  body_type (body req) ≠ JStr "folder" ->
  body_data (body req) = JStr payload ->
  parent_ok w (body req) ->
  writeFile_ok env = true ->
  insertOne_ok env = true ->
  let path := path_join (folderPath_of w) (uuidv4 env) in
  let doc := stored user (body req) (Some path) (insertedId env) in
  let o := returned user (body req) (insertedId env) in
  let (r, w') := run (postUpload req env) w in
  r = Respond 201 o
  ∧ property "localPath" o = None
  ∧ files w' = files w ++ [doc]
  ∧ disk w' = <[path := Buffer_from_base64 payload]> (disk w)
  ∧ fileQueue w' =
      (if strict_eq (body_type (body req)) (JStr "image")
       then fileQueue w ++ [queued_job user (insertedId env)] else fileQueue w)
  ∧ users w' = users w ∧ redis w' = redis w.
Proof.
  intros Hauth Hfields Hkind Hdata Hparent Hwrite Hinsert path doc o.
  subst path doc o. use_auth Hauth.
  apply fields_ok_checks in Hfields as (Hname & Ht & Hk & Hd).
  apply parent_ok_check in Hparent. unfold parent_of in Hparent. hstep_in Hparent.
  apply strict_eq_false in Hkind. unfold folderPath_of.
  destruct (present (FOLDER_PATH w)) eqn:Hconf;
    match goal with |- context [path_join ?d _] =>
      destruct (fs_existsSync d w) eqn:Hexists end;
    destruct (strict_eq (body_type (body req)) (JStr "image")) eqn:Himage;
    unfold postUpload; rewrite Hd; hrun; repeat split; reflexivity.
Qed.

(** X8. Create queues at most one job, and queues one only when it
    answers 201 for an image: every failure, and every success for a
    file or a folder, leaves the queue as it was. *)
Theorem postUpload_queue (w : World) (req : Request) (env : UploadEnv) :
  let (r, w') := run (postUpload req env) w in
  fileQueue w' = fileQueue w
  ∨ (body_type (body req) = JStr "image" ∧
     ∃ user, r = Respond 201 (returned user (body req) (insertedId env)) ∧
             fileQueue w' = fileQueue w ++ [queued_job user (insertedId env)]).
Proof.
  unfold postUpload. hstep.
  repeat (case_match; simplify_eq; hstep).
  all: first
    [ left; reflexivity
    | right; split; [by apply strict_eq_true | eexists; split; reflexivity] ].
Qed.

(** X9. A [data] that is not a string (a number, [true]) passes the
    presence check and makes [Buffer.from] throw: the upload of a file
    or an image is rejected with an exception and no record, no blob and
    no job are kept. *)
Theorem postUpload_data_not_string (w : World) (req : Request) (env : UploadEnv)
    (user : userDoc) :
  authenticated w req user ->
  fields_ok (body req) ->
  body_type (body req) ≠ JStr "folder" ->
  (∀ payload, body_data (body req) ≠ JStr payload) ->
  parent_ok w (body req) ->
  let (r, w') := run (postUpload req env) w in
  r = Throw BufferTypeError
  ∧ files w' = files w ∧ disk w' = disk w ∧ fileQueue w' = fileQueue w.
Proof.
  intros Hauth Hfields Hkind Hdata Hparent. use_auth Hauth.
  apply fields_ok_checks in Hfields as (Hname & Ht & Hk & Hd).
  apply parent_ok_check in Hparent. unfold parent_of in Hparent. hstep_in Hparent.
  apply strict_eq_false in Hkind.
  assert (Htruthy : truthy (body_data (body req)) = true).
  { rewrite Hkind in Hd. by destruct (truthy (body_data (body req))). }
  destruct (fs_existsSync (if present (FOLDER_PATH w) then default "" (FOLDER_PATH w)
                           else "/tmp/files_manager") w) eqn:Hexists;
    destruct (present (FOLDER_PATH w)) eqn:Hconf;
    destruct (body_data (body req)) as [| |b|n|payload] eqn:Hbody;
    try discriminate Htruthy; try (by destruct (Hdata payload));
    unfold postUpload; rewrite Hbody, Hd; hrun; repeat split; reflexivity.
Qed.

(** ** Create, then Get and FetchContent *)

Lemma find_app_fresh (filter : fileDoc -> bool) (l : list fileDoc) (doc : fileDoc) :
  (∀ f, f ∈ l -> filter f = false) -> filter doc = true ->
  List.find filter (l ++ [doc]) = Some doc.
Proof.
  intros Hl Hdoc. induction l as [|g l IH]; simpl.
  - by rewrite Hdoc.
  - rewrite (Hl g) by by left. apply IH. intros f Hf. apply Hl. by right.
Qed.

Lemma by_id_fresh (id : oid) (l : list fileDoc) :
  (∀ f, f ∈ l -> _id f ≠ id) -> ∀ f, f ∈ l -> by_id id f = false.
Proof. intros Hl f Hf. by apply bool_decide_eq_false_2, Hl. Qed.

Lemma by_id_and_user_fresh (id uid : oid) (l : list fileDoc) :
  (∀ f, f ∈ l -> _id f ≠ id) -> ∀ f, f ∈ l -> by_id_and_user id uid f = false.
Proof.
  intros Hl f Hf. unfold by_id_and_user.
  by rewrite (bool_decide_eq_false_2 _ (Hl f Hf)).
Qed.

Lemma getShow_found (w : World) (req : Request) (session : string)
    (fid uid : oid) (file : fileDoc) :
  resolves_to w req session ->
  ObjectId (JStr (params_id req)) = Some fid ->
  ObjectId (JStr session) = Some uid ->
  List.find (by_id_and_user fid uid) (files w) = Some file ->
  run (getShow req) w = (Respond 200 (json_of_file file), w).
Proof.
  intros Hs Hfid Huid Hfile. use_session Hs.
  unfold getShow. hrun. reflexivity.
Qed.

Lemma resolves_to_same (w w' : World) (req req' : Request) (session : string) :
  redis w' = redis w -> x_token req' = x_token req ->
  resolves_to w req session -> resolves_to w' req' session.
Proof.
  intros Hredis Htoken (token & Ht & Hne & Hs & Hne').
  exists token. rewrite Hredis, Htoken. done.
Qed.

(** X10. Create then Get is a round trip. After a 201 whose new id is
    not yet in the collection and is read back by the driver, Get with
    the uploader's token and that id answers 200 with the record just
    stored, and Get with the session of any other user answers 404. *)
Theorem upload_then_show (w w' : World) (req show : Request) (env : UploadEnv)
    (o : jobject) :
  run (postUpload req env) w = (Respond 201 o, w') ->
  reads_back (insertedId env) ->
  (∀ f, f ∈ files w -> _id f ≠ insertedId env) ->
  params_id show = toString (insertedId env) ->
  ∃ doc,
    files w' = files w ++ [doc] ∧ _id doc = insertedId env ∧
    (x_token show = x_token req ->
       run (getShow show) w' = (Respond 200 (json_of_file doc), w'))
    ∧ (∀ session uid,
         resolves_to w' show session -> ObjectId (JStr session) = Some uid ->
         userId doc ≠ Some uid ->
         run (getShow show) w' = (error 404 "Not found", w')).
Proof.
  intros Hrun Hback Hfresh Hid.
  apply postUpload_created in Hrun
    as (user & path & Hauth & _ & _ & Hfiles & _ & Hredis & _).
  exists (stored user (body req) path (insertedId env)).
  split; [exact Hfiles | split; [reflexivity|]]. split.
  - intros Htoken. destruct Hauth as (session & uid & Hs & Huid & Hfind).
    apply find_some in Hfind as [_ Huser]. apply bool_decide_eq_true in Huser.
    eapply getShow_found.
    + eapply resolves_to_same; eauto.
    + rewrite Hid. exact Hback.
    + exact Huid.
    + rewrite Hfiles. apply find_app_fresh.
      * by apply by_id_and_user_fresh.
      * unfold by_id_and_user, stored. simpl. rewrite Huser.
        by rewrite !bool_decide_eq_true_2.
  - intros session uid Hs Huid Hother. use_session Hs.
    assert (Hnone : List.find (by_id_and_user (insertedId env) uid) (files w') = None).
    { apply find_none_iff. intros f Hf [Hfid Hfu]. rewrite Hfiles in Hf.
      apply elem_of_app in Hf as [Hf | Hf%list_elem_of_singleton].
      - by apply (Hfresh f Hf).
      - subst f. by apply Hother. }
    unfold reads_back in Hback.
    unfold getShow. hrun. reflexivity.
Qed.

(** X11. Create then FetchContent is a round trip. After a 201 for a
    file or an image (new id not yet in the collection, read back by the
    driver), fetching that id without [size] returns the base64 decoding
    of the uploaded [data], with the MIME type of the uploaded name, to
    the session of the user the response names; a request without token
    gets the same content when the uploaded [isPublic] is truthy and 404
    otherwise. *)
Theorem upload_then_download (w w' : World) (req fetch : Request) (env : UploadEnv)
    (o : jobject) :
  run (postUpload req env) w = (Respond 201 o, w') ->
  body_type (body req) ≠ JStr "folder" ->
  reads_back (insertedId env) ->
  (∀ f, f ∈ files w -> _id f ≠ insertedId env) ->
  params_id fetch = toString (insertedId env) ->
  present (query_size fetch) = false ->
  ∃ payload,
    body_data (body req) = JStr payload ∧
    let served :=
      (Pipe (from_option JStr (JBool false) (mime_lookup (body_name (body req))))
         (Buffer_from_base64 payload), w') in
    (∀ owner, property "userId" o = Some (JStr (toString owner)) ->
              resolves_to w' fetch (toString owner) ->
              run (getFile fetch) w' = served)
    ∧ (x_token fetch = None ->
       run (getFile fetch) w' =
         if truthy (public_of (body req)) then served
         else (error 404 "Not found", w')).
Proof.
  intros Hrun Hkind Hback Hfresh Hid Hsize.
  apply postUpload_created in Hrun
    as (user & path & _ & _ & -> & Hfiles & _ & _ & Hcase).
  destruct Hcase as [(_ & Hfolder & _) | (payload & -> & _ & Hdata & Hdisk & _)];
    [done|].
  exists payload. split; [exact Hdata|]. cbv zeta.
  set (p := path_join (folderPath_of w) (uuidv4 env)) in *.
  set (doc := stored user (body req) (Some p) (insertedId env)) in *.
  assert (Hfind : List.find (by_id (insertedId env)) (files w') = Some doc).
  { rewrite Hfiles. apply find_app_fresh; [by apply by_id_fresh|].
    by apply bool_decide_eq_true_2. }
  assert (Hblob : disk w' !! p = Some (Buffer_from_base64 payload)).
  { rewrite Hdisk. apply lookup_insert_eq. }
  assert (Hfile : is_folder doc = false) by by apply strict_eq_false.
  assert (Hpath : filePath_of fetch doc = Some p).
  { unfold filePath_of. by rewrite Hsize. }
  unfold reads_back in Hback.
  assert (Hfid : ObjectId (JStr (params_id fetch)) = Some (insertedId env))
    by (by rewrite Hid).
  split.
  - intros owner Howner Hs. simpl in Howner. injection Howner as Howner.
    eapply (getFile_serves w' fetch _ doc p); eauto.
    right. exists (user_id user). split; [reflexivity|].
    by rewrite Howner.
  - intros Hanon. destruct (truthy (public_of (body req))) eqn:Hpublic.
    + eapply (getFile_serves w' fetch _ doc p); eauto. by left.
    + assert (Hprivate : truthy (isPublic doc) = false) by exact Hpublic.
      unfold getFile. hrun. reflexivity.
Qed.

(** ** Publish and Unpublish *)

Lemma update_first_split (filter : fileDoc -> bool) (upd : fileDoc -> fileDoc)
    (l : list fileDoc) :
  (List.find filter l = None ∧ update_first filter upd l = l)
  ∨ ∃ l1 f l2, l = l1 ++ f :: l2 ∧ List.find filter l = Some f ∧
               update_first filter upd l = l1 ++ upd f :: l2.
Proof.
  induction l as [|g l IH]; simpl; [by left|].
  destruct (filter g) eqn:Hg.
  - right. by exists [], g, l.
  - destruct IH as [[Hnone Hsame] | (l1 & f & l2 & -> & Hfind & Hupd)].
    + left. by rewrite Hsame.
    + right. exists (g :: l1), f, l2. by rewrite Hupd.
Qed.

(** X12. Publish and Unpublish touch one flag of one record: whatever
    the request, the stores other than [files] are unchanged, and
    [files] is either unchanged or differs in exactly one record, the
    first one with the id of the request that the user of the session
    owns, whose [isPublic] is set and whose other fields are kept. *)
Theorem setPublic_changes_one_flag (w : World) (req : Request) (value : bool) :
  let w' := (run (toggle req value) w).2 in
  users w' = users w ∧ redis w' = redis w ∧ disk w' = disk w ∧ dirs w' = dirs w
  ∧ fileQueue w' = fileQueue w
  ∧ (files w' = files w
     ∨ ∃ session fid uid l1 f l2,
         resolves_to w req session ∧
         ObjectId (JStr (params_id req)) = Some fid ∧
         ObjectId (JStr session) = Some uid ∧
         _id f = fid ∧ userId f = Some uid ∧
         files w = l1 ++ f :: l2 ∧
         files w' = l1 ++ with_isPublic (JBool value) f :: l2).
Proof.
  assert (Htoggle : toggle req value = setPublic value req) by by destruct value.
  rewrite Htoggle. unfold setPublic. hstep.
  repeat (case_match; simplify_eq; hstep); simpl;
    try (repeat split; try reflexivity; by left).
  - repeat split; try reflexivity.
    match goal with |- context [update_first ?flt ?upd ?l] =>
      destruct (update_first_split flt upd l)
        as [[_ ->] | (l1 & f & l2 & Hl & Hfind & ->)] end; [by left|].
    right. plain_bools.
    apply find_some in Hfind as [_ Hby]. unfold by_id_and_user in Hby.
    apply andb_true_iff in Hby as [Hid Hu]. apply bool_decide_eq_true in Hid, Hu.
    eexists _, _, _, l1, f, l2. repeat split; try eassumption.
    eexists. repeat split; eassumption.
  - repeat split; try reflexivity.
    match goal with |- context [update_first ?flt ?upd ?l] =>
      destruct (update_first_split flt upd l)
        as [[_ ->] | (l1 & f & l2 & Hl & Hfind & ->)] end; [by left|].
    match goal with Hn : _ <$> _ = None |- _ => rewrite Hfind in Hn; discriminate Hn end.
Qed.

Lemma update_first_none (filter : fileDoc -> bool) (upd : fileDoc -> fileDoc)
    (l : list fileDoc) :
  List.find filter l = None -> update_first filter upd l = l.
Proof.
  intros Hnone. destruct (update_first_split filter upd l)
    as [[_ Hsame] | (l1 & f & l2 & _ & Hfind & _)]; [exact Hsame | congruence].
Qed.

(** X13. Nobody publishes or unpublishes the file of another user: for
    a session, when the driver reads the id of the request and the value
    of the session as ObjectIds and no record has both that id and that
    user as owner, Publish and Unpublish answer 404 "Not found".  When
    the driver does not read the id of the request as an ObjectId (as
    for "nonexistent"), or the value of the session, [ObjectId] throws
    and they end on that exception without a response.  In each case
    nothing changes. *)
Theorem setPublic_not_owner (w : World) (req : Request) (session : string)
    (value : bool) :
  resolves_to w req session ->
  (ObjectId (JStr (params_id req)) = None ->
     run (toggle req value) w = (Throw BSONTypeError, w))
  ∧ ∀ fid, ObjectId (JStr (params_id req)) = Some fid ->
      (ObjectId (JStr session) = None ->
         run (toggle req value) w = (Throw BSONTypeError, w))
      ∧ ∀ uid, ObjectId (JStr session) = Some uid ->
          (∀ f, f ∈ files w -> ¬ (_id f = fid ∧ userId f = Some uid)) ->
          run (toggle req value) w = (error 404 "Not found", w).
Proof.
  intros Hs. use_session Hs.
  assert (Htoggle : toggle req value = setPublic value req) by by destruct value.
  rewrite Htoggle. split; [|intros fid Hfid; split].
  - intros Hfid. unfold setPublic. hrun. reflexivity.
  - intros Huid. unfold setPublic. hrun. reflexivity.
  - intros uid Huid Hnone. apply find_none_iff in Hnone.
    unfold setPublic. hrun.
    rewrite (update_first_none _ _ _ Hnone), set_files_same. reflexivity.
Qed.

Lemma find_by_id_owned (fid uid : oid) (l : list fileDoc) (file : fileDoc) :
  List.find (by_id fid) l = Some file -> userId file = Some uid ->
  List.find (by_id_and_user fid uid) l = Some file.
Proof.
  intros Hfind Howner. induction l as [|g l IH]; [discriminate|].
  simpl in *. unfold by_id_and_user, by_id in *.
  destruct (bool_decide (_id g = fid)); simpl.
  - injection Hfind as ->. by rewrite bool_decide_eq_true_2.
  - auto.
Qed.

Lemma find_by_id_updated (fid uid : oid) (v : jsval) (l : list fileDoc) (file : fileDoc) :
  List.find (by_id fid) l = Some file -> userId file = Some uid ->
  List.find (by_id fid) (update_first (by_id_and_user fid uid) (with_isPublic v) l)
    = Some (with_isPublic v file).
Proof.
  intros Hfind Howner. induction l as [|g l IH]; [discriminate|].
  simpl in *. unfold by_id_and_user, by_id in *.
  destruct (bool_decide (_id g = fid)) eqn:Hg; simpl.
  - injection Hfind as ->. rewrite bool_decide_eq_true_2 by done. simpl.
    by rewrite Hg.
  - simpl. rewrite Hg. auto.
Qed.

(** X14. Publish opens a file to everybody and Unpublish closes it
    again. For a file with a blob that the user of the session owns:
    after Publish a request without token fetches its content, and
    after Unpublish the same request is answered 404. *)
Theorem publish_opens_unpublish_closes (w : World) (req fetch : Request)
    (session : string) (fid uid : oid) (file : fileDoc) (p : string) (content : bytes) :
  resolves_to w req session ->
  ObjectId (JStr (params_id req)) = Some fid ->
  ObjectId (JStr session) = Some uid ->
  List.find (by_id fid) (files w) = Some file ->
  userId file = Some uid ->
  is_folder file = false ->
  localPath file = Some p ->
  disk w !! p = Some content ->
  params_id fetch = params_id req -> x_token fetch = None ->
  present (query_size fetch) = false ->
  let published := (run (putPublish req) w).2 in
  let unpublished := (run (putUnpublish req) w).2 in
  run (getFile fetch) published =
    (Pipe (from_option JStr (JBool false) (mime_lookup (name file))) content, published)
  ∧ run (getFile fetch) unpublished = (error 404 "Not found", unpublished).
Proof.
  intros Hs Hfid Huid Hfile Howner Hkind Hpath Hblob Hsame Hanon Hsize published unpublished.
  pose proof (find_by_id_owned _ _ _ _ Hfile Howner) as Hown.
  subst published unpublished. unfold putPublish, putUnpublish.
  rewrite !(setPublic_owned w req session fid uid file) by assumption.
  cbn [snd].
  set (upd v := set_files (update_first (by_id_and_user fid uid)
                             (with_isPublic (JBool v)) (files w)) w).
  assert (Hfound : ∀ v, List.find (by_id fid) (files (upd v))
                        = Some (with_isPublic (JBool v) file)).
  { intros v. by apply find_by_id_updated. }
  assert (Hfid' : ObjectId (JStr (params_id fetch)) = Some fid) by (by rewrite Hsame).
  split.
  - eapply (getFile_serves (upd true) fetch fid (with_isPublic (JBool true) file) p);
      eauto.
    + by left.
    + unfold filePath_of. by rewrite Hsize.
  - specialize (Hfound false). unfold upd in Hfound.
    assert (Hprivate : truthy (isPublic (with_isPublic (JBool false) file)) = false)
      by reflexivity.
    unfold getFile. hrun. reflexivity.
Qed.

(** ** List: pages *)

Lemma digit_value_char (m : N) :
  (m < 10)%N -> digit_value (pretty_N_char m) = Some (Z.of_N m).
Proof.
  intros Hm.
  assert (m = 0 ∨ m = 1 ∨ m = 2 ∨ m = 3 ∨ m = 4 ∨ m = 5 ∨ m = 6 ∨ m = 7 ∨ m = 8 ∨ m = 9)%N
    as Hcases by lia.
  repeat (destruct Hcases as [-> | Hcases]; [reflexivity|]). by subst m.
Qed.

Lemma all_digits_go (x : N) (s : string) :
  all_digits s = true -> all_digits (pretty_N_go x s) = true.
Proof.
  revert s. induction (N.lt_wf_0 x) as [x _ IH]; intros s Hs.
  assert (x = 0 ∨ 0 < x)%N as [-> | Hpos] by lia.
  - by rewrite pretty_N_go_0.
  - rewrite pretty_N_go_step by done. apply IH; [by apply N.div_lt|].
    simpl. rewrite Hs, andb_true_r. unfold pretty_N_char. by repeat case_match.
Qed.

Lemma pretty_N_go_nonempty (x : N) (s : string) :
  s ≠ "" -> pretty_N_go x s ≠ "".
Proof.
  revert s. induction (N.lt_wf_0 x) as [x _ IH]; intros s Hs.
  assert (x = 0 ∨ 0 < x)%N as [-> | Hpos] by lia.
  - by rewrite pretty_N_go_0.
  - rewrite pretty_N_go_step by done. apply IH; [by apply N.div_lt | done].
Qed.

(** Reading the digits [pretty] printed gives the number back. *)
Lemma parse_digits_go (x : N) (s : string) :
  (0 < x)%N ->
  parse_digits 10 None (pretty_N_go x s) = parse_digits 10 (Some (Z.of_N x)) s.
Proof.
  revert s. induction (N.lt_wf_0 x) as [x _ IH]; intros s Hpos.
  rewrite pretty_N_go_step by done.
  assert (Hmod : (x `mod` 10 < 10)%N) by (apply N.mod_lt; lia).
  assert (Hx : Z.of_N x = Z.of_N (x `div` 10) * 10 + Z.of_N (x `mod` 10)).
  { rewrite (N.div_mod x 10) at 1 by lia. lia. }
  assert (x `div` 10 = 0 ∨ 0 < x `div` 10)%N as [Hzero | Hdiv] by lia.
  - rewrite Hzero, pretty_N_go_0. cbn [parse_digits].
    rewrite digit_value_char by done.
    rewrite (proj2 (Z.ltb_lt _ _)) by lia. cbn [default from_option].
    rewrite Hx, Hzero. reflexivity.
  - rewrite IH by (done || by apply N.div_lt). cbn [parse_digits].
    rewrite digit_value_char by done.
    rewrite (proj2 (Z.ltb_lt _ _)) by lia. cbn [default from_option].
    by rewrite Hx.
Qed.

(** An integer below 2^53 is a double. *)
Lemma to_double_exact (n : Z) : Z.abs n < 2 ^ 53 -> to_double n = Finite n.
Proof.
  intros Hn. unfold to_double.
  assert (He : Z.log2 (Z.abs n) - 52 <= 0).
  { destruct (decide (Z.abs n = 0)) as [-> | Hpos]; [done|].
    assert (Z.log2 (Z.abs n) < 53) by (apply Z.log2_lt_pow2; lia). lia. }
  by rewrite (proj2 (Z.leb_le _ _) He).
Qed.

(** Rounding keeps the sign: the double of a negative integer is a
    count that [$skip] rejects. *)
Lemma skip_count_negative (n : Z) : n < 0 -> skip_count (to_double n) = None.
Proof.
  intros Hn. unfold to_double.
  set (a := Z.abs n). set (e := Z.log2 a - 52).
  destruct (e <=? 0) eqn:He.
  - unfold skip_count. by rewrite (proj2 (Z.ltb_lt _ _) Hn).
  - apply Z.leb_gt in He. cbv zeta.
    set (q := Z.shiftr a e).
    match goal with |- context [if ?c then q + 1 else q] =>
      set (q' := if c then q + 1 else q) end.
    destruct (Z.shiftl 1 1024 <=? Z.shiftl q' e) eqn:Hinf.
    + unfold skip_count. by rewrite (proj2 (Z.ltb_lt _ _) Hn).
    + assert (Ha : 0 < a) by (subst a; lia).
      assert (Hq : 0 < q).
      { subst q. rewrite Z.shiftr_div_pow2 by lia.
        apply Z.div_str_pos. split; [by apply Z.pow_pos_nonneg; lia|].
        transitivity (2 ^ Z.log2 a); [apply Z.pow_le_mono_r; lia|].
        by apply Z.log2_spec. }
      assert (Hq' : 0 < q') by (subst q'; destruct (_ || _); lia).
      assert (Hm : 0 < Z.shiftl q' e).
      { rewrite Z.shiftl_mul_pow2 by lia.
        apply Z.mul_pos_pos; [done | apply Z.pow_pos_nonneg; lia]. }
      assert (Hneg : Z.sgn n * Z.shiftl q' e < 0).
      { rewrite (Z.sgn_neg n Hn). lia. }
      unfold skip_count. by rewrite (proj2 (Z.ltb_lt _ _) Hneg).
Qed.

(** White space is not a digit. *)
Lemma trim_start_digit (c : Ascii.ascii) (s : string) :
  all_digits (String c "") = true -> trim_start (String c s) = String c s.
Proof.
  intros Hc. simpl in Hc. rewrite andb_true_r in Hc.
  destruct c as [[] [] [] [] [] [] [] []]; try discriminate Hc;
    destruct s as [|b [|d s]]; reflexivity.
Qed.

(** [parseInt] on a string of digits: no sign, no white space, no [0x]. *)
Lemma parseInt_digits (s : string) :
  all_digits s = true -> s ≠ "" ->
  parseInt (Some s) = from_option to_double NaN (parse_digits 10 None s).
Proof.
  intros Hs Hne. destruct s as [|c s]; [done|]. clear Hne.
  simpl in Hs. apply andb_true_iff in Hs as [Hc Hs].
  unfold parseInt. rewrite trim_start_digit by (simpl; by rewrite Hc).
  destruct c as [[] [] [] [] [] [] [] []]; try discriminate Hc;
    destruct s as [|c' s']; try reflexivity;
    simpl in Hs; apply andb_true_iff in Hs as [Hc' _];
    destruct c' as [[] [] [] [] [] [] [] []]; try discriminate Hc'; reflexivity.
Qed.

(** [parseInt(String(n))] is [n], for [n] below 2^53. *)
Lemma parseInt_pretty (n : nat) :
  Z.of_nat n < 2 ^ 53 ->
  parseInt (Some (pretty (Z.of_nat n))) = Finite (Z.of_nat n).
Proof.
  intros Hn. destruct n as [|n]; [reflexivity|].
  change (pretty (Z.of_nat (S n))) with (pretty (N.pos (Pos.of_succ_nat n))).
  unfold pretty, pretty_N. rewrite decide_False by done.
  rewrite parseInt_digits.
  - rewrite parse_digits_go by lia. cbn [parse_digits from_option].
    rewrite to_double_exact by lia. f_equal; lia.
  - by apply all_digits_go.
  - rewrite pretty_N_go_step by lia. by apply pretty_N_go_nonempty.
Qed.

(** Page [k] skips [20 k] records, as long as [20 k] is below 2^53. *)
Lemma page_skip_pretty (req : Request) (k : nat) :
  query_page req = Some (pretty (Z.of_nat k)) ->
  20 * Z.of_nat k < 2 ^ 53 ->
  page_skip req = Some (20 * k)%nat.
Proof.
  intros Hpage Hk. unfold page_skip. rewrite Hpage, parseInt_pretty by lia.
  assert (Hzero : or_zero (Finite (Z.of_nat k)) = Finite (Z.of_nat k)).
  { unfold or_zero. destruct (Z.of_nat k =? 0) eqn:Hz; [|reflexivity].
    apply Z.eqb_eq in Hz. by rewrite Hz. }
  rewrite Hzero. unfold times. rewrite to_double_exact by lia.
  unfold skip_count.
  rewrite (proj2 (Z.ltb_ge _ _)) by lia.
  rewrite (proj2 (Z.ltb_lt _ _)) by (rewrite Z.shiftl_1_l; lia).
  f_equal. lia.
Qed.

(** A page that is not a number is page 0. *)
Lemma page_skip_NaN (req : Request) :
  parseInt (query_page req) = NaN -> page_skip req = Some 0%nat.
Proof. intros Hnan. unfold page_skip. by rewrite Hnan. Qed.

(** The answer of List for a session and a page that [$skip] accepts. *)
Lemma getIndex_answer (w : World) (req : Request) (session : string) (uid : oid)
    (n : nat) :
  resolves_to w req session ->
  ObjectId (JStr session) = Some uid ->
  page_skip req = Some n ->
  run (getIndex req) w =
    (RespondList 200
       (json_of_file <$> take 20 (drop n (listed uid (parent_query req) w))), w).
Proof.
  intros Hs Huid Hpage. use_session Hs. unfold page_skip in Hpage.
  unfold getIndex. fold (parent_query req).
  hrun. reflexivity.
Qed.

(** The answer of List for a page that [$skip] rejects. *)
Lemma getIndex_rejected (w : World) (req : Request) (session : string) (uid : oid) :
  resolves_to w req session ->
  ObjectId (JStr session) = Some uid ->
  page_skip req = None ->
  run (getIndex req) w = (Throw MongoError, w).
Proof.
  intros Hs Huid Hpage. use_session Hs. unfold page_skip in Hpage.
  unfold getIndex. hrun. reflexivity.
Qed.

(** X15. List answers page [k] with the records 20k to 20k+19 of the
    records the user of the session owns under the requested parent, in
    the order of the collection: at most twenty of them, entry [j] of
    the page being record number [20k + j], so that over the pages no
    record is skipped or listed twice.  The page is given in decimal
    digits and [20 k] is below 2^53, where numbers are exact. *)
Theorem getIndex_pages (w : World) (req : Request) (session : string) (uid : oid)
    (k : nat) :
  resolves_to w req session ->
  ObjectId (JStr session) = Some uid ->
  query_page req = Some (pretty (Z.of_nat k)) ->
  20 * Z.of_nat k < 2 ^ 53 ->
  ∃ docs,
    run (getIndex req) w = (RespondList 200 (json_of_file <$> docs), w)
    ∧ (length docs <= 20)%nat
    ∧ ∀ j, docs !! j =
           if decide (j < 20)%nat
           then listed uid (parent_query req) w !! (20 * k + j)%nat else None.
Proof.
  intros Hs Huid Hpage Hk.
  pose proof (getIndex_answer w req session uid _ Hs Huid
                (page_skip_pretty req k Hpage Hk)) as Hanswer.
  eexists. split; [exact Hanswer|]. split.
  - rewrite length_take. lia.
  - intros j. rewrite lookup_take. case_decide; [|reflexivity].
    apply lookup_drop.
Qed.

(** X16. A page that [parseInt] does not read as a number counts as
    page 0, and a negative page makes the aggregation fail on its
    [$skip]: the handler throws and answers nothing. *)
Theorem getIndex_odd_pages (w : World) (req : Request) (session : string) (uid : oid) :
  resolves_to w req session ->
  ObjectId (JStr session) = Some uid ->
  (parseInt (query_page req) = NaN ->
     run (getIndex req) w =
       (RespondList 200 (json_of_file <$> take 20 (listed uid (parent_query req) w)), w))
  ∧ (∀ n, parseInt (query_page req) = Finite n -> n < 0 ->
       run (getIndex req) w = (Throw MongoError, w))
  ∧ (parseInt (query_page req) = Infinite true ->
       run (getIndex req) w = (Throw MongoError, w)).
Proof.
  intros Hs Huid. split; [|split].
  - intros Hnan.
    by rewrite (getIndex_answer w req session uid 0 Hs Huid (page_skip_NaN req Hnan)).
  - intros n Hn Hneg. apply (getIndex_rejected w req session uid Hs Huid).
    unfold page_skip. rewrite Hn. unfold or_zero.
    rewrite (proj2 (Z.eqb_neq _ _)) by lia.
    apply skip_count_negative. lia.
  - intros Hinf. apply (getIndex_rejected w req session uid Hs Huid).
    unfold page_skip. by rewrite Hinf.
Qed.

(** X17. Create then List under a folder. After a 201 for an upload with
    the id of a parent as a string, the new record is the last of the
    uploader's records under that parent, and the first page of that
    listing shows it when fewer than twenty came before. *)
Theorem upload_then_list (w w' : World) (req list : Request) (env : UploadEnv)
    (o : jobject) (p : string) :
  run (postUpload req env) w = (Respond 201 o, w') ->
  body_parentId (body req) = JStr p -> p ≠ "" ->
  x_token list = x_token req ->
  query_parentId list = Some p ->
  query_page list = None ->
  ∃ uid doc,
    files w' = files w ++ [doc]
    ∧ listed uid p w' = listed uid p w ++ [doc]
    ∧ run (getIndex list) w' =
        (RespondList 200 (json_of_file <$> take 20 (listed uid p w ++ [doc])), w').
Proof.
  intros Hrun Hparent Hne Htoken Hquery Hpage.
  apply postUpload_created in Hrun
    as (user & path & Hauth & _ & _ & Hfiles & _ & Hredis & _).
  destruct Hauth as (session & uid & Hs & Huid & Hfind).
  apply find_some in Hfind as [_ Huser]. apply bool_decide_eq_true in Huser.
  exists uid, (stored user (body req) path (insertedId env)).
  assert (Hlisted : listed uid p w' =
            listed uid p w ++ [stored user (body req) path (insertedId env)]).
  { unfold listed. rewrite Hfiles, List.filter_app. f_equal. simpl.
    unfold by_user_and_parent, stored, parent_of. simpl.
    rewrite Hparent, Huser. simpl.
    rewrite bool_decide_eq_true_2 by done.
    by rewrite (proj2 (strict_eq_true _ _) eq_refl). }
  split; [exact Hfiles | split; [exact Hlisted|]].
  assert (Hs' : resolves_to w' list session) by (eapply resolves_to_same; eauto).
  assert (Hskip : page_skip list = Some 0%nat).
  { apply page_skip_NaN. by rewrite Hpage. }
  pose proof (getIndex_answer w' list session uid 0 Hs' Huid Hskip) as Hanswer.
  assert (Hq : parent_query list = p).
  { unfold parent_query, present. rewrite Hquery.
    by rewrite (eqb_empty_false _ Hne). }
  rewrite Hq, Hlisted in Hanswer. exact Hanswer.
Qed.

(** ** The worker: what it writes *)

Lemma lookup_foldl_write (rs : list Rendition) (d : gmap string bytes) (q : string) :
  foldl write_rendition d rs !! q = from_option Some (d !! q) (last_written q rs).
Proof.
  revert d. induction rs as [|r rs IH]; intros d; [reflexivity|].
  cbn [foldl last_written]. rewrite IH.
  destruct (last_written q rs) as [t|]; [reflexivity|]. simpl.
  unfold write_rendition. destruct (rendition_written r) as [[p t]|]; [|reflexivity].
  case_decide as Hp.
  - subst p. by rewrite lookup_insert_eq.
  - by rewrite lookup_insert_ne.
Qed.

Lemma last_written_some (q : string) (rs : list Rendition) (t : bytes) :
  last_written q rs = Some t -> ∃ r, r ∈ rs ∧ rendition_written r = Some (q, t).
Proof.
  induction rs as [|r rs IH]; [discriminate|]. cbn [last_written].
  destruct (last_written q rs) as [t'|].
  - intros [= ->]. destruct (IH eq_refl) as (r' & Hin & Hw).
    exists r'. split; [by right | done].
  - destruct (rendition_written r) as [[p t']|] eqn:Hr; [|discriminate].
    case_decide as Hp; [|discriminate]. intros [= ->]. subst p.
    exists r. split; [by left | done].
Qed.

Lemma foldl_write_twice (rs : list Rendition) (d : gmap string bytes) :
  foldl write_rendition (foldl write_rendition d rs) rs = foldl write_rendition d rs.
Proof.
  apply map_eq. intros q. rewrite !lookup_foldl_write.
  by destruct (last_written q rs).
Qed.

Lemma append_ne (p s : string) : s ≠ "" -> p +:+ s ≠ p.
Proof.
  intros Hs E. apply Hs. apply (append_inj_r p). rewrite E.
  clear. induction p as [|c p IH]; [reflexivity|].
  change (String c p = String c (p +:+ "")). by f_equal.
Qed.

(** A rendition is read from the blob alone. *)
Lemma generateThumbnail_same (env : JobEnv) (d d' : gmap string bytes)
    (path : option string) (width : Z) :
  (∀ p, path = Some p -> d' !! p = d !! p) ->
  generateThumbnail env d' path width = generateThumbnail env d path width.
Proof.
  intros Hsame. unfold generateThumbnail.
  destruct path as [p|]; [|reflexivity]. simpl. by rewrite (Hsame p eq_refl).
Qed.

Lemma rendition_of_size (env : JobEnv) (d : gmap string bytes) (path : option string)
    (r : Rendition) (q : string) (t : bytes) :
  r ∈ generateThumbnail env d path <$> sizes ->
  rendition_written r = Some (q, t) ->
  ∃ width, width ∈ sizes ∧ q = thumbnailPath_of path width.
Proof.
  intros Hin Hw. apply list_elem_of_fmap in Hin as (width & -> & Hwidth).
  exists width. split; [done|]. by apply written_path in Hw.
Qed.

Lemma set_disk_same (w : World) : set_disk (disk w) w = w.
Proof. by destruct w. Qed.

(** The job runs in one of two ways. *)
Lemma process_cases (job : Job) (env : JobEnv) (w : World) :
  (job_world (process job env w) = w ∧ job_result (process job env w) ≠ Completed
   ∧ ∀ file, ¬ matched job w file)
  ∨ ∃ file, matched job w file ∧
      process job env w =
        let renditions := generateThumbnail env (disk w) (localPath file) <$> sizes in
        {| job_result :=
             if forallb (fun r => bool_decide (is_Some (rendition_written r))) renditions
             then Completed else Failed ThumbnailError;
           job_world := set_disk (foldl write_rendition (disk w) renditions) w;
           job_accesses :=
             match ObjectId (job_fileId job), ObjectId (job_userId job) with
             | Some fid, Some uid =>
                 FindOne fid uid :: concat (rendition_accesses <$> renditions)
             | _, _ => []
             end |}.
Proof.
  unfold process, matched.
  destruct (truthy (job_fileId job)) eqn:Hf; simpl;
    [|left; repeat split; try done; intros file (? & _); done].
  destruct (truthy (job_userId job)) eqn:Hu; simpl;
    [|left; repeat split; try done; intros file (_ & ? & _); done].
  destruct (ObjectId (job_fileId job)) as [fid|] eqn:Hfid;
    [|left; repeat split; try done; intros file (_ & _ & ? & ? & ? & _); done].
  destruct (ObjectId (job_userId job)) as [uid|] eqn:Huid;
    [|left; repeat split; try done; intros file (_ & _ & ? & ? & _ & ? & _); done].
  destruct (List.find (by_id_and_user fid uid) (files w)) as [file|] eqn:Hfind.
  - right. exists file. split; [|reflexivity].
    split; [done | split; [done|]]. by exists fid, uid.
  - left. repeat split; try done.
    intros file (_ & _ & fid' & uid' & [= <-] & [= <-] & Hfile). congruence.
Qed.

Lemma matched_same (job : Job) (w : World) (file file' : fileDoc) :
  matched job w file -> matched job w file' -> file' = file.
Proof.
  intros (_ & _ & fid & uid & Hfid & Huid & Hfind)
         (_ & _ & fid' & uid' & Hfid' & Huid' & Hfind').
  congruence.
Qed.

Lemma process_disk (job : Job) (env : JobEnv) (w : World) (file : fileDoc) :
  matched job w file ->
  job_world (process job env w) =
    set_disk (foldl write_rendition (disk w)
                (generateThumbnail env (disk w) (localPath file) <$> sizes)) w.
Proof.
  intros Hm.
  destruct (process_cases job env w) as [(_ & _ & Hnone) | (file' & Hm' & Hrun)];
    [by destruct (Hnone file)|].
  rewrite Hrun. by rewrite (matched_same _ _ _ _ Hm Hm').
Qed.

Lemma process_changed_path (job : Job) (env : JobEnv) (w : World) (q : string) :
  disk (job_world (process job env w)) !! q ≠ disk w !! q ->
  ∃ file width, matched job w file ∧ width ∈ sizes ∧
                q = thumbnailPath_of (localPath file) width.
Proof.
  destruct (process_cases job env w) as [(Hw & _ & _) | (file & Hm & _)].
  - rewrite Hw. by intros [].
  - rewrite (process_disk job env w file Hm). cbn [disk set_disk].
    rewrite lookup_foldl_write.
    destruct (last_written q _) as [t|] eqn:Hlast; [intros _|done].
    apply last_written_some in Hlast as (r & Hin & Hwritten).
    destruct (rendition_of_size _ _ _ _ _ _ Hin Hwritten) as (width & Hwidth & ->).
    by exists file, width.
Qed.

Lemma process_keeps_blob (job : Job) (env : JobEnv) (w : World) (file : fileDoc)
    (p : string) :
  matched job w file -> localPath file = Some p ->
  disk (job_world (process job env w)) !! p = disk w !! p.
Proof.
  intros Hm Hpath.
  rewrite (process_disk job env w file Hm). cbn [disk set_disk].
  rewrite lookup_foldl_write.
  destruct (last_written p _) as [t|] eqn:Hlast; [|done].
  apply last_written_some in Hlast as (r & Hin & Hwritten).
  destruct (rendition_of_size _ _ _ _ _ _ Hin Hwritten) as (width & _ & Hp).
  rewrite Hpath in Hp. unfold thumbnailPath_of in Hp. simpl in Hp.
  symmetry in Hp. by apply append_ne in Hp.
Qed.

(** X18. A job writes renditions and nothing else: after any job the
    users, the records, the sessions and the directories are as before,
    a path of the disk has changed only if it is the rendition path of
    one of the three widths of the record the job names, and the blob of
    that record is as it was. *)
Theorem process_writes_only_renditions (job : Job) (env : JobEnv) (w : World) :
  let w' := job_world (process job env w) in
  users w' = users w ∧ files w' = files w ∧ redis w' = redis w ∧ dirs w' = dirs w
  ∧ (∀ q, disk w' !! q ≠ disk w !! q ->
       ∃ file width, matched job w file ∧ width ∈ sizes ∧
                     q = thumbnailPath_of (localPath file) width)
  ∧ (∀ file p, matched job w file -> localPath file = Some p ->
       disk w' !! p = disk w !! p).
Proof.
  cbv zeta. split; [|split; [|split; [|split; [|split]]]].
  5: apply process_changed_path.
  5: apply process_keeps_blob.
  all: destruct (process_cases job env w) as [(Hw & _ & _) | (file & Hm & _)];
    [by rewrite Hw | by rewrite (process_disk job env w file Hm)].
Qed.

(** X19. A job delivered twice does no harm: running the same job again
    on the state the first run left, with the same answers of the
    outside world, ends the same way, makes the same accesses and leaves
    the state as the first run left it. *)
Theorem process_twice (job : Job) (env : JobEnv) (w : World) :
  process job env (job_world (process job env w)) = process job env w.
Proof.
  destruct (process_cases job env w) as [(Hw & _ & _) | (file & Hm & Hrun)].
  - by rewrite Hw.
  - set (w1 := job_world (process job env w)).
    assert (Hw1 : w1 = set_disk (foldl write_rendition (disk w)
                    (generateThumbnail env (disk w) (localPath file) <$> sizes)) w).
    { subst w1. by rewrite Hrun. }
    assert (Hm1 : matched job w1 file).
    { rewrite Hw1. exact Hm. }
    destruct (process_cases job env w1) as [(_ & _ & Hnone) | (file1 & Hm1' & Hrun1)];
      [by destruct (Hnone file)|].
    assert (file1 = file) as ->.
    { destruct Hm1 as (_ & _ & fid & uid & Hfid & Huid & Hfind).
      destruct Hm1' as (_ & _ & fid' & uid' & Hfid' & Huid' & Hfind').
      congruence. }
    assert (Hsame : ∀ width,
              generateThumbnail env (disk w1) (localPath file) width
              = generateThumbnail env (disk w) (localPath file) width).
    { intros width. apply generateThumbnail_same. intros p Hpath.
      by apply (process_keeps_blob job env w file p). }
    rewrite Hrun1, Hrun. cbv zeta.
    assert (Hrs : generateThumbnail env (disk w1) (localPath file) <$> sizes
                  = generateThumbnail env (disk w) (localPath file) <$> sizes).
    { apply list_fmap_ext. intros _ width _. apply Hsame. }
    rewrite Hrs. f_equal.
    rewrite Hw1 at 1. cbn [disk set_disk]. rewrite foldl_write_twice.
    rewrite Hw1. reflexivity.
Qed.

Lemma generateThumbnail_no_source (env : JobEnv) (d : gmap string bytes)
    (path : option string) (width : Z) :
  (∀ p, path = Some p -> d !! p = None) ->
  rendition_written (generateThumbnail env d path width) = None.
Proof.
  intros Hnone. unfold generateThumbnail.
  destruct path as [p|]; [|reflexivity]. simpl. by rewrite (Hnone p eq_refl).
Qed.

(** X20. A job whose record has no blob (a folder, or a file whose blob
    is not on the disk) fails and writes nothing. *)
Theorem process_without_blob (job : Job) (env : JobEnv) (w : World) (file : fileDoc) :
  matched job w file ->
  (∀ p, localPath file = Some p -> disk w !! p = None) ->
  job_result (process job env w) = Failed ThumbnailError
  ∧ job_world (process job env w) = w.
Proof.
  intros Hm Hnone.
  destruct (process_matched job env w file Hm) as [Hresult _].
  rewrite Hresult, (process_disk job env w file Hm). cbn [sizes fmap list_fmap foldl forallb].
  unfold write_rendition.
  rewrite !(generateThumbnail_no_source env (disk w) (localPath file) _ Hnone).
  split; [reflexivity | apply set_disk_same].
Qed.

Lemma last_written_size (env : JobEnv) (d : gmap string bytes) (path : option string)
    (width : Z) (q : string) (t : bytes) :
  width ∈ sizes ->
  rendition_written (generateThumbnail env d path width) = Some (q, t) ->
  last_written q (generateThumbnail env d path <$> sizes) = Some t.
Proof.
  intros Hin Hw. pose proof (written_path _ _ _ _ _ _ Hw) as ->.
  assert (Hother : ∀ width', pretty width' ≠ pretty width ->
            match rendition_written (generateThumbnail env d path width') with
            | Some (p, t') =>
                if decide (p = from_option id "undefined" path +:+ "_" +:+ pretty width)
                then Some t' else None
            | None => None
            end = None).
  { intros width' Hne.
    destruct (rendition_written (generateThumbnail env d path width'))
      as [[p t']|] eqn:Hw'; [|reflexivity].
    apply written_path in Hw'. subst p.
    rewrite decide_False; [reflexivity|]. by apply thumbnail_paths_differ. }
  unfold sizes in *. rewrite !elem_of_cons, elem_of_nil in Hin.
  cbn [fmap list_fmap last_written].
  destruct Hin as [->|[->|[->|[]]]].
  - rewrite (Hother 100), (Hother 250) by (by vm_compute).
    rewrite Hw. by rewrite decide_True.
  - rewrite (Hother 100) by (by vm_compute).
    rewrite Hw. by rewrite decide_True.
  - rewrite Hw. by rewrite decide_True.
Qed.

(** ** Create, the worker, then FetchContent *)

(** X21. From the upload of an image to its thumbnail. After a 201 for
    an image (ids printed and read back by the driver, new id not yet in
    the collection), the job at the end of the queue names the new
    record and its owner; once the worker has run it, for each width
    that the scaler could render from the decoded upload and whose write
    went through, fetching the record with that width as [size] returns
    that rendition to its owner, whatever happened to the other widths. *)
Theorem upload_process_fetch (w w1 : World) (req : Request) (env : UploadEnv)
    (jenv : JobEnv) (o : jobject) :
  run (postUpload req env) w = (Respond 201 o, w1) ->
  body_type (body req) = JStr "image" ->
  reads_back (insertedId env) -> printed (insertedId env) ->
  (∀ u, u ∈ users w -> reads_back (user_id u) ∧ printed (user_id u)) ->
  (∀ f, f ∈ files w -> _id f ≠ insertedId env) ->
  ∃ job payload,
    fileQueue w1 = fileQueue w ++ [job] ∧
    body_data (body req) = JStr payload ∧
    let w2 := job_world (process job jenv w1) in
    ∀ width thumbnail fetch owner,
      width ∈ sizes ->
      imageThumbnail (Buffer_from_base64 payload) width = Some thumbnail ->
      thumbnail_writeFile_ok jenv width = true ->
      params_id fetch = toString (insertedId env) ->
      query_size fetch = Some (pretty width) ->
      property "userId" o = Some (JStr (toString owner)) ->
      resolves_to w1 fetch (toString owner) ->
      run (getFile fetch) w2 =
        (Pipe (from_option JStr (JBool false) (mime_lookup (body_name (body req))))
           thumbnail, w2).
Proof.
  intros Hrun Himage Hback Hprinted Husers Hfresh.
  apply postUpload_created in Hrun
    as (user & path & Hauth & _ & -> & Hfiles & _ & _ & Hcase).
  destruct Hcase as [(_ & Hfolder & _) | (payload & -> & _ & Hdata & Hdisk & Hqueue)];
    [congruence|].
  rewrite Himage in Hqueue. change (strict_eq (JStr "image") (JStr "image")) with true in Hqueue.
  exists (queued_job user (insertedId env)), payload.
  split; [exact Hqueue | split; [exact Hdata|]]. cbv zeta.
  set (p := path_join (folderPath_of w) (uuidv4 env)) in *.
  set (doc := stored user (body req) (Some p) (insertedId env)) in *.
  set (job := queued_job user (insertedId env)).
  destruct Hauth as (session & uid & _ & _ & Hfind).
  apply find_some in Hfind as [Huser _].
  apply list_elem_of_In, Husers in Huser as [Huback Huprinted].
  assert (Hm : matched job w1 doc).
  { split; [by apply negb_true_iff, String.eqb_neq|].
    split; [by apply negb_true_iff, String.eqb_neq|].
    exists (insertedId env), (user_id user). split; [exact Hback|]. split; [exact Huback|].
    rewrite Hfiles. apply find_app_fresh; [by apply by_id_and_user_fresh|].
    unfold by_id_and_user. by rewrite !bool_decide_eq_true_2. }
  intros width thumbnail fetch owner Hwidth Hthumb Hwrite Hid Hsize Howner Hs.
  set (w2 := job_world (process job jenv w1)).
  assert (Hw2 : w2 = set_disk (foldl write_rendition (disk w1)
                   (generateThumbnail jenv (disk w1) (localPath doc) <$> sizes)) w1)
    by apply (process_disk job jenv w1 doc Hm).
  assert (Hwritten : rendition_written
                       (generateThumbnail jenv (disk w1) (localPath doc) width)
                     = Some (thumbnailPath_of (Some p) width, thumbnail)).
  { unfold generateThumbnail. cbn [localPath doc stored mbind option_bind].
    rewrite Hdisk, lookup_insert_eq. cbn [mbind option_bind].
    rewrite Hthumb. cbn [rendition_written]. by rewrite Hwrite. }
  assert (Hblob : disk w2 !! thumbnailPath_of (Some p) width = Some thumbnail).
  { rewrite Hw2. cbn [disk set_disk]. rewrite lookup_foldl_write.
    by rewrite (last_written_size _ _ _ _ _ _ Hwidth Hwritten). }
  assert (Hfound : List.find (by_id (insertedId env)) (files w2) = Some doc).
  { rewrite Hw2. cbn [files set_disk]. rewrite Hfiles.
    apply find_app_fresh; [by apply by_id_fresh | by apply bool_decide_eq_true_2]. }
  assert (Hfid : ObjectId (JStr (params_id fetch)) = Some (insertedId env))
    by (by rewrite Hid).
  simpl in Howner. injection Howner as Howner.
  eapply (getFile_serves w2 fetch _ doc (thumbnailPath_of (Some p) width)); eauto.
  - right. exists (user_id user). split; [reflexivity|]. rewrite Howner.
    destruct Hs as (token & Ht & Hne & Hredis & Hne').
    exists token. rewrite Hw2. by repeat split.
  - apply strict_eq_false. cbn [type doc stored]. by rewrite Himage.
  - unfold filePath_of, present. rewrite Hsize.
    unfold sizes in Hwidth. rewrite !elem_of_cons, elem_of_nil in Hwidth.
    by destruct Hwidth as [->|[->|[->|[]]]].
Qed.

(** ** The database client *)

Lemma initializeData_stores (env : SeedEnv) (w : World) :
  redis (initializeData env w) = redis w ∧ disk (initializeData env w) = disk w
  ∧ dirs (initializeData env w) = dirs w
  ∧ fileQueue (initializeData env w) = fileQueue w.
Proof.
  unfold initializeData, nbUsers, nbFiles.
  destruct (length (users w) =? 0)%nat, (length (files w) =? 0)%nat; done.
Qed.

Lemma initializeData_files (env : SeedEnv) (w : World) :
  files (initializeData env w) =
    if (nbFiles w =? 0)%nat
    then (fun index => sample_file (seed_file_id env index) index) <$> seq 0 30
    else files w.
Proof.
  unfold initializeData, nbUsers, nbFiles.
  destruct (files w) as [|f fs] eqn:Hfiles;
    destruct (length (users w) =? 0)%nat; simpl; by rewrite ?Hfiles.
Qed.

Lemma initializeData_users (env : SeedEnv) (w : World) :
  users (initializeData env w) =
    if (nbUsers w =? 0)%nat
    then (fun i => {| user_id := seed_user_id env i |}) <$> seq 0 4
    else users w.
Proof.
  unfold initializeData, nbUsers, nbFiles.
  destruct (users w) as [|u us] eqn:Husers;
    destruct (length (files w) =? 0)%nat; simpl; by rewrite ?Husers.
Qed.

(** X22. [initializeData] fills an empty collection and leaves the rest
    alone: afterwards there are 4 users if there was none and 30 files
    if there was none, a collection that had documents is unchanged, the
    sessions and the disk are unchanged, and a second run, whatever ids
    the driver would assign, changes nothing. *)
Theorem initializeData_once (env env' : SeedEnv) (w : World) :
  let w1 := initializeData env w in
  nbUsers w1 = (if (nbUsers w =? 0)%nat then 4 else nbUsers w)%nat
  ∧ nbFiles w1 = (if (nbFiles w =? 0)%nat then 30 else nbFiles w)%nat
  ∧ (nbUsers w ≠ 0%nat -> users w1 = users w)
  ∧ (nbFiles w ≠ 0%nat -> files w1 = files w)
  ∧ redis w1 = redis w ∧ disk w1 = disk w
  ∧ initializeData env' w1 = w1.
Proof.
  cbv zeta.
  pose proof (initializeData_files env w) as Hfiles.
  pose proof (initializeData_users env w) as Husers.
  destruct (initializeData_stores env w) as (Hredis & Hdisk & _).
  assert (Hnu : nbUsers (initializeData env w)
                = (if (nbUsers w =? 0)%nat then 4 else nbUsers w)%nat).
  { unfold nbUsers at 1. rewrite Husers. by destruct (nbUsers w =? 0)%nat. }
  assert (Hnf : nbFiles (initializeData env w)
                = (if (nbFiles w =? 0)%nat then 30 else nbFiles w)%nat).
  { unfold nbFiles at 1. rewrite Hfiles. by destruct (nbFiles w =? 0)%nat. }
  split; [exact Hnu | split; [exact Hnf|]].
  split; [| split; [| split; [exact Hredis | split; [exact Hdisk|]]]].
  - intros Hne. rewrite Husers. by destruct (nbUsers w) eqn:Hn.
  - intros Hne. rewrite Hfiles. by destruct (nbFiles w) eqn:Hn.
  - assert (Hu0 : (nbUsers (initializeData env w) =? 0)%nat = false).
    { rewrite Hnu. destruct (nbUsers w) eqn:Hn; reflexivity. }
    assert (Hf0 : (nbFiles (initializeData env w) =? 0)%nat = false).
    { rewrite Hnf. destruct (nbFiles w) eqn:Hn; reflexivity. }
    unfold initializeData at 1. by rewrite Hu0, Hf0.
Qed.

Lemma find_exists (filter : fileDoc -> bool) (l : list fileDoc) (f : fileDoc) :
  f ∈ l -> filter f = true -> ∃ g, List.find filter l = Some g.
Proof.
  intros Hin Hf. destruct (List.find filter l) as [g|] eqn:Hfind; [by exists g|].
  apply list_elem_of_In in Hin.
  by rewrite (find_none _ _ Hfind f Hin) in Hf.
Qed.

(** X23. The sample files have no owner. In a database whose [files]
    collection was seeded by [initializeData], for the id of any sample
    file: FetchContent answers 404 without a token, and with any valid
    session it throws, reading [userId] of a record that has none; Get,
    Publish and Unpublish answer 404, and a listing shows nothing,
    whatever the parent and the page: it is empty, or the pipeline is
    rejected on its [$skip]. *)
Theorem sample_files_have_no_owner (env : SeedEnv) (w : World) (req : Request)
    (index : nat) (value : bool) :
  files w = [] ->
  (index < 30)%nat ->
  ObjectId (JStr (params_id req)) = Some (seed_file_id env index) ->
  let w1 := initializeData env w in
  (x_token req = None -> run (getFile req) w1 = (error 404 "Not found", w1))
  ∧ ∀ session uid,
      resolves_to w req session ->
      ObjectId (JStr session) = Some uid ->
      run (getFile req) w1 = (Throw TypeError, w1)
      ∧ run (getShow req) w1 = (error 404 "Not found", w1)
      ∧ run (toggle req value) w1 = (error 404 "Not found", w1)
      ∧ run (getIndex req) w1 =
          (match page_skip req with
           | Some _ => RespondList 200 []
           | None => Throw MongoError
           end, w1).
Proof.
  intros Hempty Hindex Hfid. cbv zeta.
  set (w1 := initializeData env w).
  set (seeds := (fun i => sample_file (seed_file_id env i) i) <$> seq 0 30).
  assert (Hfiles : files w1 = seeds).
  { subst w1. rewrite initializeData_files. unfold nbFiles. by rewrite Hempty. }
  assert (Hseed : ∀ f, f ∈ seeds -> userId f = None ∧ isPublic f = JUndefined).
  { intros f Hf. apply list_elem_of_fmap in Hf as (i & -> & _). done. }
  assert (Hin : sample_file (seed_file_id env index) index ∈ seeds).
  { apply list_elem_of_fmap. exists index. split; [done|].
    apply elem_of_seq. lia. }
  destruct (find_exists (by_id (seed_file_id env index)) seeds _ Hin) as [f Hfind];
    [by apply bool_decide_eq_true_2|].
  pose proof Hfind as Hf. apply find_some in Hf as [Hf _].
  apply list_elem_of_In, Hseed in Hf as [Howner Hpublic].
  assert (Hprivate : truthy (isPublic f) = false) by by rewrite Hpublic.
  rewrite <- Hfiles in Hfind.
  split.
  - intros Hanon. clear Hfiles. unfold getFile. hrun. reflexivity.
  - intros session uid Hs Huid.
    assert (Hs1 : resolves_to w1 req session).
    { destruct Hs as (token & Ht & Hne & Hredis & Hne'). exists token.
      subst w1. by rewrite (proj1 (initializeData_stores env w)). }
    assert (Hnone : List.find (by_id_and_user (seed_file_id env index) uid) (files w1)
                    = None).
    { apply find_none_iff. intros g Hg [_ Hgu]. rewrite Hfiles in Hg.
      apply Hseed in Hg as [Hg _]. congruence. }
    assert (Hlisted : listed uid (parent_query req) w1 = []).
    { unfold listed. rewrite Hfiles. clear -Hseed.
      induction seeds as [|g l IH]; [reflexivity|]. simpl.
      unfold by_user_and_parent at 1.
      rewrite bool_decide_eq_false_2.
      - apply IH. intros f Hf. apply Hseed. by right.
      - destruct (Hseed g ltac:(by left)) as [-> _]. done. }
    split; [|split; [|split]].
    + clear Hnone Hfiles. use_session Hs1. unfold getFile. hrun. reflexivity.
    + clear Hprivate Hfiles. use_session Hs1. unfold getShow. hrun. reflexivity.
    + clear Hprivate Hfiles. use_session Hs1.
      assert (Htoggle : toggle req value = setPublic value req) by by destruct value.
      rewrite Htoggle. unfold setPublic. hrun.
      rewrite (update_first_none _ _ _ Hnone), set_files_same. reflexivity.
    + destruct (page_skip req) as [n|] eqn:Hpage.
      * rewrite (getIndex_answer w1 req session uid n Hs1 Huid Hpage).
        rewrite Hlisted, drop_nil. reflexivity.
      * apply (getIndex_rejected w1 req session uid Hs1 Huid Hpage).
Qed.

End Further.

(** * The further theorems at concrete inputs *)

Lemma kinds_file : JStr "file" ∈ kinds.
Proof. unfold kinds. repeat constructor. Qed.

Lemma kinds_image : JStr "image" ∈ kinds.
Proof. unfold kinds. repeat constructor. Qed.

(** X1: a listing without a token. *)
Lemma no_session_unauthorized_witness :
  run (@getIndex test_platform (listing None None None)) test_world
    = (error 401 "Unauthorized", test_world).
Proof.
  apply (@no_session_unauthorized test_platform test_world (listing None None None)
           test_env).
  by left.
Defined.

(** X2: Alice's session after her account was removed. *)
Lemma postUpload_unknown_user_witness :
  run (@postUpload test_platform (upload (Some "tokenA") text_body) test_env)
    world_without_alice = (error 401 "Unauthorized", world_without_alice).
Proof.
  apply (@postUpload_unknown_user test_platform world_without_alice _ test_env
           (hex alice) alice).
  - by apply tokenA_resolves.
  - reflexivity.
  - intros u Hu. apply list_elem_of_singleton in Hu. by subst u.
Defined.

(** X3: Alice gets her file. *)
Lemma getShow_only_own_witness :
  ∃ file, file ∈ files test_world ∧ userId file = Some alice ∧
          json_of_file notes = json_of_file file.
Proof.
  destruct (@getShow_only_own test_platform test_world test_world
              (on_file (Some "tokenA") (hex file1) None) (json_of_file notes) eq_refl)
    as (_ & session & fid & uid & file & Hs & Hfid & Huid & Hin & _ & Howner & Ho).
  exists file. split; [exact Hin | split; [|exact Ho]].
  destruct Hs as (token & [= <-] & _ & [= <-] & _).
  injection Huid as <-. exact Howner.
Defined.

(** X4: Bob asks for Alice's file, and for "nonexistent". *)
Lemma getShow_not_owner_witness :
  run (@getShow test_platform (on_file (Some "tokenB") (hex file1) None)) test_world
    = (error 404 "Not found", test_world)
  ∧ run (@getShow test_platform (on_file (Some "tokenB") "nonexistent" None)) test_world
    = (Throw BSONTypeError, test_world).
Proof.
  pose proof (fun id => @getShow_not_owner test_platform test_world
                (on_file (Some "tokenB") id None) (hex bob)
                ltac:(by apply tokenB_resolves)) as T.
  split.
  - apply (proj2 (proj2 (T (hex file1)) file1 eq_refl) bob eq_refl).
    intros f Hf [Hid Hu]. unfold test_world in Hf. simpl in Hf.
    rewrite !elem_of_cons, elem_of_nil in Hf.
    destruct Hf as [->|[->|[->|[]]]]; discriminate.
  - apply (proj1 (T "nonexistent")). reflexivity.
Defined.

(** X6: Alice fetches her folder, with a size. *)
Lemma getFile_folder_witness :
  run (@getFile test_platform (on_file (Some "tokenA") (hex file2) (Some "500")))
    test_world = (error 400 "A folder doesn't have content", test_world).
Proof.
  apply (@getFile_folder test_platform test_world _ file2 docs); try reflexivity.
  right. exists alice. split; [reflexivity|]. by apply tokenA_resolves.
Defined.

(** X7: Alice uploads an image to the root. *)
Lemma postUpload_file_stored_witness :
  let w' := (run (@postUpload test_platform (upload (Some "tokenA") image_body) test_env)
               test_world).2 in
  disk w' !! "/tmp/files_manager/u9" = Some [Byte.x68; Byte.x69]
  ∧ fileQueue w' = [ {| job_userId := JStr (hex alice); job_fileId := JStr (hex new_id) |} ].
Proof.
  pose proof (@postUpload_file_stored test_platform test_world
                (upload (Some "tokenA") image_body) test_env _ "aGk="
                (alice_authenticated image_body)) as T.
  cbv zeta in *.
  destruct (run _ _) as [r w'].
  destruct T as (_ & _ & _ & Hdisk & Hqueue & _); try reflexivity.
  - split; [reflexivity | split; [exact kinds_image | by left]].
  - discriminate.
  - by left.
  - cbn [snd]. rewrite Hdisk, Hqueue. split; reflexivity.
Defined.

(** X9: Alice uploads a file whose data is the number 5. *)
Lemma postUpload_data_not_string_witness :
  let (r, w') := run (@postUpload test_platform (upload (Some "tokenA") number_body)
                        test_env) test_world in
  r = Throw BufferTypeError ∧ files w' = files test_world.
Proof.
  pose proof (@postUpload_data_not_string test_platform test_world
                (upload (Some "tokenA") number_body) test_env _
                (alice_authenticated number_body)) as T.
  destruct (run _ _) as [r w'].
  destruct T as (Hr & Hfiles & _).
  - split; [reflexivity | split; [exact kinds_file | by left]].
  - discriminate.
  - intros payload. discriminate.
  - by left.
  - by split.
Defined.

Lemma new_id_fresh : ∀ f, f ∈ files test_world -> _id f ≠ new_id.
Proof.
  intros f Hf. unfold test_world in Hf. simpl in Hf.
  rewrite !elem_of_cons, elem_of_nil in Hf.
  destruct Hf as [->|[->|[->|[]]]]; discriminate.
Qed.

(** X10: Alice uploads a text file; she gets it back, Bob does not. *)
Lemma upload_then_show_witness :
  let w' := (run (@postUpload test_platform (upload (Some "tokenA") text_body) test_env)
               test_world).2 in
  (∃ doc, run (@getShow test_platform (on_file (Some "tokenA") (hex new_id) None)) w'
          = (Respond 200 (json_of_file doc), w'))
  ∧ run (@getShow test_platform (on_file (Some "tokenB") (hex new_id) None)) w'
    = (error 404 "Not found", w').
Proof.
  intros w'.
  pose proof (fun show => @upload_then_show test_platform test_world w'
                (upload (Some "tokenA") text_body) show test_env
                (returned {| user_id := alice |} text_body new_id)
                ltac:(subst w'; vm_compute; reflexivity) eq_refl new_id_fresh) as T.
  split.
  - destruct (T (on_file (Some "tokenA") (hex new_id) None) eq_refl)
      as (doc & _ & _ & Hown & _).
    exists doc. by apply Hown.
  - destruct (T (on_file (Some "tokenB") (hex new_id) None) eq_refl)
      as (doc & Hfiles & _ & _ & Hother).
    apply (Hother (hex bob) bob); [| reflexivity |].
    + apply tokenB_resolves; [reflexivity|]. subst w'. by vm_compute.
    + assert (Hdoc : doc = stored {| user_id := alice |} text_body
                             (Some "/tmp/files_manager/u9") new_id).
      { subst w'. vm_compute in Hfiles. by injection Hfiles as <-. }
      rewrite Hdoc. discriminate.
Defined.

(** X11: Alice uploads a private text file; she downloads "hi", a
    request without token gets 404. *)
Lemma upload_then_download_witness :
  let w' := (run (@postUpload test_platform (upload (Some "tokenA") text_body) test_env)
               test_world).2 in
  run (@getFile test_platform (on_file (Some "tokenA") (hex new_id) None)) w'
    = (Pipe (JStr "text/plain") [Byte.x68; Byte.x69], w')
  ∧ run (@getFile test_platform (on_file None (hex new_id) None)) w'
    = (error 404 "Not found", w').
Proof.
  intros w'.
  pose proof (fun fetch => @upload_then_download test_platform test_world w'
                (upload (Some "tokenA") text_body) fetch test_env
                (returned {| user_id := alice |} text_body new_id)
                ltac:(subst w'; vm_compute; reflexivity) ltac:(discriminate)
                eq_refl new_id_fresh) as T.
  split.
  - destruct (T (on_file (Some "tokenA") (hex new_id) None) eq_refl eq_refl)
      as (payload & Hdata & Hown & _).
    injection Hdata as <-.
    apply (Hown alice eq_refl).
    apply tokenA_resolves; [reflexivity|]. subst w'. by vm_compute.
  - destruct (T (on_file None (hex new_id) None) eq_refl eq_refl)
      as (payload & Hdata & _ & Hanon).
    injection Hdata as <-. exact (Hanon eq_refl).
Defined.

(** X13: Bob tries to publish Alice's file, and to unpublish
    "nonexistent". *)
Lemma setPublic_not_owner_witness :
  run (@toggle test_platform (on_file (Some "tokenB") (hex file1) None) true) test_world
    = (error 404 "Not found", test_world)
  ∧ run (@toggle test_platform (on_file (Some "tokenB") "nonexistent" None) false)
      test_world = (Throw BSONTypeError, test_world).
Proof.
  pose proof (fun id value => @setPublic_not_owner test_platform test_world
                (on_file (Some "tokenB") id None) (hex bob) value
                ltac:(by apply tokenB_resolves)) as T.
  split.
  - apply (proj2 (proj2 (T (hex file1) true) file1 eq_refl) bob eq_refl).
    intros f Hf [Hid Hu]. unfold test_world in Hf. simpl in Hf.
    rewrite !elem_of_cons, elem_of_nil in Hf.
    destruct Hf as [->|[->|[->|[]]]]; discriminate.
  - apply (proj1 (T "nonexistent" false)). reflexivity.
Defined.

(** X14: Alice publishes, then unpublishes, her text file. *)
Lemma publish_opens_unpublish_closes_witness :
  let req := on_file (Some "tokenA") (hex file1) None in
  let fetch := on_file None (hex file1) None in
  run (@getFile test_platform fetch) (run (@putPublish test_platform req) test_world).2
    = (Pipe (JStr "text/plain") [Byte.x68; Byte.x69],
       (run (@putPublish test_platform req) test_world).2)
  ∧ run (@getFile test_platform fetch) (run (@putUnpublish test_platform req) test_world).2
    = (error 404 "Not found", (run (@putUnpublish test_platform req) test_world).2).
Proof.
  intros req fetch.
  apply (@publish_opens_unpublish_closes test_platform test_world req fetch (hex alice)
           file1 alice notes "/tmp/files_manager/u1" [Byte.x68; Byte.x69]);
    try reflexivity.
  by apply tokenA_resolves.
Defined.

(** X15: Alice lists her folder of 45 files: page 1 shows the files 20
    to 39, page 2 the files 40 to 44. *)
Lemma getIndex_pages_witness :
  let page k := listing (Some "tokenA") (Some (hex file2)) (Some k) in
  run (@getIndex test_platform (page "1")) shelf
    = (RespondList 200 (json_of_file <$> (shelf_file <$> seq 20 20)), shelf)
  ∧ run (@getIndex test_platform (page "2")) shelf
    = (RespondList 200 (json_of_file <$> (shelf_file <$> seq 40 5)), shelf).
Proof.
  intros page.
  pose proof (fun (k : nat) (Hk : 20 * Z.of_nat k < 2 ^ 53) =>
                @getIndex_pages test_platform shelf
                (page (pretty (Z.of_nat k))) (hex alice) alice k
                ltac:(by apply tokenA_resolves) eq_refl eq_refl Hk) as T.
  split.
  - destruct (T 1%nat ltac:(lia)) as (docs & Hrun & _ & Hdocs).
    change (pretty (Z.of_nat 1)) with "1" in Hrun. rewrite Hrun.
    replace docs with (shelf_file <$> seq 20 20); [reflexivity|].
    apply list_eq. intros j. rewrite Hdocs.
    do 20 (destruct j as [|j]; [vm_compute; reflexivity|]).
    rewrite decide_False by lia. apply lookup_ge_None_2.
    rewrite length_fmap, length_seq. lia.
  - destruct (T 2%nat ltac:(lia)) as (docs & Hrun & _ & Hdocs).
    change (pretty (Z.of_nat 2)) with "2" in Hrun. rewrite Hrun.
    replace docs with (shelf_file <$> seq 40 5); [reflexivity|].
    apply list_eq. intros j. rewrite Hdocs.
    do 20 (destruct j as [|j]; [vm_compute; reflexivity|]).
    rewrite decide_False by lia. apply lookup_ge_None_2.
    rewrite length_fmap, length_seq. lia.
Defined.

(** X16: Alice lists her folder of 45 files with page "two", page "-1"
    and page "-0x1f": the first shows the files 0 to 19. *)
Lemma getIndex_odd_pages_witness :
  let page k := listing (Some "tokenA") (Some (hex file2)) (Some k) in
  run (@getIndex test_platform (page "two")) shelf
    = (RespondList 200 (json_of_file <$> (shelf_file <$> seq 0 20)), shelf)
  ∧ run (@getIndex test_platform (page "-1")) shelf = (Throw MongoError, shelf)
  ∧ run (@getIndex test_platform (page " -0x1f")) shelf = (Throw MongoError, shelf).
Proof.
  intros page.
  pose proof (fun k => @getIndex_odd_pages test_platform shelf (page k) (hex alice) alice
                ltac:(by apply tokenA_resolves) eq_refl) as T.
  split; [|split].
  - rewrite (proj1 (T "two") eq_refl). reflexivity.
  - apply (proj1 (proj2 (T "-1")) (-1)); [reflexivity | lia].
  - apply (proj1 (proj2 (T " -0x1f")) (-31)); [reflexivity | lia].
Defined.

(** X17: Alice uploads a text file into her folder and lists the folder. *)
Lemma upload_then_list_witness :
  let w' := (run (@postUpload test_platform (upload (Some "tokenA") nested_body) test_env)
               test_world).2 in
  ∃ doc, run (@getIndex test_platform (listing (Some "tokenA") (Some (hex file2)) None)) w'
         = (RespondList 200 [json_of_file doc], w')
         ∧ _id doc = new_id.
Proof.
  intros w'.
  destruct (@upload_then_list test_platform test_world w'
              (upload (Some "tokenA") nested_body)
              (listing (Some "tokenA") (Some (hex file2)) None) test_env
              (returned {| user_id := alice |} nested_body new_id) (hex file2))
    as (uid & doc & Hfiles & Hlisted & Hrun); try reflexivity; try (by vm_compute).
  assert (Hdoc : doc = stored {| user_id := alice |} nested_body
                         (Some "/tmp/files_manager/u9") new_id).
  { subst w'. vm_compute in Hfiles. by injection Hfiles as <-. }
  exists doc. split; [|by rewrite Hdoc].
  rewrite Hrun. subst w'. rewrite Hdoc.
  assert (Hbefore : @listed uid (hex file2) test_world = []
                    ∨ ∃ f, f ∈ @listed uid (hex file2) test_world).
  { destruct (listed uid (hex file2) test_world) as [|f l]; [by left|].
    right. exists f. by left. }
  destruct Hbefore as [-> | (f & Hf)]; [reflexivity|].
  unfold listed in Hf. apply list_elem_of_In, filter_In in Hf as [Hf Hby].
  apply list_elem_of_In in Hf. unfold test_world in Hf. simpl in Hf.
  rewrite !elem_of_cons, elem_of_nil in Hf.
  unfold by_user_and_parent in Hby. apply andb_true_iff in Hby as [_ Hby].
  destruct Hf as [->|[->|[->|[]]]]; discriminate.
Defined.

Lemma folder_job_matched : @matched test_platform folder_job test_world docs.
Proof.
  split; [reflexivity | split; [reflexivity|]].
  exists file2, alice. split; [reflexivity | split; reflexivity].
Qed.

(** X20: the job of Alice's folder. *)
Lemma process_without_blob_witness :
  job_result (@process test_platform folder_job all_writes_ok test_world)
    = Failed ThumbnailError
  ∧ job_world (@process test_platform folder_job all_writes_ok test_world) = test_world.
Proof.
  apply (@process_without_blob test_platform folder_job all_writes_ok test_world docs
           folder_job_matched).
  intros p. discriminate.
Defined.

(** X21: Alice uploads an image; the worker runs its job; she fetches
    the rendition of width 250. *)
Lemma upload_process_fetch_witness :
  let w1 := (run (@postUpload test_platform (upload (Some "tokenA") image_body) test_env)
               test_world).2 in
  ∃ job, last (fileQueue w1) = Some job ∧
    let w2 := job_world (@process test_platform job all_writes_ok w1) in
    run (@getFile test_platform (on_file (Some "tokenA") (hex new_id) (Some "250"))) w2
      = (Pipe (JStr "image/png") [Byte.x68; Byte.x69], w2).
Proof.
  intros w1.
  destruct (@upload_process_fetch test_platform test_world w1
              (upload (Some "tokenA") image_body) test_env all_writes_ok
              (returned {| user_id := alice |} image_body new_id))
    as (job & payload & Hqueue & Hdata & Hfetch); try reflexivity; try discriminate.
  - intros u Hu. unfold test_world in Hu. simpl in Hu.
    rewrite !elem_of_cons, elem_of_nil in Hu.
    destruct Hu as [->|[->|[]]]; split; (reflexivity || discriminate).
  - exact new_id_fresh.
  - exists job. split; [by rewrite Hqueue, last_snoc|].
    injection Hdata as <-. cbv zeta in *.
    apply (Hfetch 250 [Byte.x68; Byte.x69] _ alice); try reflexivity.
    + unfold sizes. repeat constructor.
    + apply tokenA_resolves; [reflexivity|]. subst w1. by vm_compute.
Defined.

(** X23: the fourth sample file of a freshly seeded database. *)
Lemma sample_files_have_no_owner_witness :
  let w1 := initializeData seeds empty_world in
  run (@getFile test_platform (on_file None (hex (nth_id 3)) None)) w1
    = (error 404 "Not found", w1)
  ∧ run (@getFile test_platform (on_file (Some "tokenA") (hex (nth_id 3)) None)) w1
    = (Throw TypeError, w1).
Proof.
  intros w1. split.
  - apply (@sample_files_have_no_owner test_platform seeds empty_world
             (on_file None (hex (nth_id 3)) None) 3 true eq_refl ltac:(lia) eq_refl).
    reflexivity.
  - apply (proj2 (@sample_files_have_no_owner test_platform seeds empty_world
                    (on_file (Some "tokenA") (hex (nth_id 3)) None) 3 true
                    eq_refl ltac:(lia) eq_refl) (hex alice) alice).
    + by apply tokenA_resolves.
    + reflexivity.
Defined.
